(** * dli: a command-line client for Digital Loggers PDUs

    A shallow embedding of [dli.py]: the [DLIPDU] client class, the click
    commands built on it, and the properties of both.

    The program is glue over three libraries (the Python builtins, [requests]
    and [rich]).  Their behaviour, as far as the program observes it, is
    written out in the modules [Py], [Requests] and [Rich]; the program itself
    is in [DLIPDU] and [Cli], one definition per source function. *)

From Stdlib Require Import ZArith String Ascii List Bool Lia DecimalString.
From Stdlib Require DecimalPos DecimalZ.
Import ListNotations.
Local Open Scope string_scope.
Local Open Scope Z_scope.
Local Set Warnings "-register-all".

(** ** Python values and builtins *)

Module Py.

(** A float is observed by the program only through its truth value and its
    [str]; it is kept as these two observations. *)
Record pyfloat := mkFloat { float_nonzero : bool; float_repr : string }.

(** What [json.loads] produces.  An object is the list of its items in
    insertion order, keys distinct. *)
Inductive value :=
| JNull
| JBool (b : bool)
| JInt (z : Z)
| JFloat (f : pyfloat)
| JStr (s : string)
| JArr (l : list value)
| JObj (items : list (string * value)).

Inductive exn :=
| ValueError (msg : string)
| KeyError (key : string)
| TypeError (msg : string)
| JSONDecodeError (doc : string)
| ConnectionError (msg : string)
| HTTPError (status : Z) (body : string)
| NotRenderableError (msg : string)
| BadParameter (msg : string).

Inductive result (A : Type) :=
| Ok (a : A)
| Raise (e : exn).
Arguments Ok {A} a.
Arguments Raise {A} e.

(** *** [int(s)] on a string, base 10

    Leading and trailing white space is dropped, one sign is accepted, and
    the digits may be separated by single underscores.

    Strings are byte strings, and [int] below is the builtin on ASCII
    strings.  On a string that holds a byte from 128 up it answers [None],
    which says nothing of the builtin: Python reads the decimal digits and
    the spaces of other scripts too.  A statement that takes [int s = None]
    as a premise therefore also takes [is_ascii s = true]. *)

Definition is_ascii (s : string) : bool :=
  (fix all (s : string) : bool :=
     match s with
     | String c s' => (nat_of_ascii c <? 128)%nat && all s'
     | EmptyString => true
     end) s.

Definition is_space (c : ascii) : bool :=
  let n := nat_of_ascii c in
  ((9 <=? n) && (n <=? 13) || (n =? 32))%nat.

Definition digit_of (c : ascii) : option Z :=
  let n := nat_of_ascii c in
  if ((48 <=? n) && (n <=? 57))%nat then Some (Z.of_nat n - 48) else None.

Fixpoint lstrip (s : string) : string :=
  match s with
  | String c s' => if is_space c then lstrip s' else s
  | EmptyString => EmptyString
  end.

Fixpoint all_space (s : string) : bool :=
  match s with
  | String c s' => is_space c && all_space s'
  | EmptyString => true
  end.

(** [digits acc after_digit s]: the value of the digit run [s], continuing
    from [acc]; [after_digit] says whether the previous character was a digit
    (an underscore is legal only between two digits).  The run ends at the
    end of the string or at trailing white space. *)
Fixpoint digits (acc : Z) (after_digit : bool) (s : string) : option Z :=
  match s with
  | EmptyString => if after_digit then Some acc else None
  | String c s' =>
      match digit_of c with
      | Some d => digits (10 * acc + d) true s'
      | None =>
          if after_digit then
            if Ascii.eqb c "_" then
              match s' with
              | String c' _ =>
                  match digit_of c' with
                  | Some _ => digits acc false s'
                  | None => None
                  end
              | EmptyString => None
              end
            else if all_space s then Some acc else None
          else None
      end
  end.

Fixpoint digit_count (s : string) : Z :=
  match s with
  | String c s' =>
      match digit_of c with Some _ => 1 | None => 0 end + digit_count s'
  | EmptyString => 0
  end.

(** The interpreter refuses a decimal literal of more digits than this (the
    default of [sys.set_int_max_str_digits]), with the same [ValueError] as
    for a malformed one. *)
Definition max_str_digits : Z := 4300.

(** [int s] is [None] where Python raises [ValueError]. *)
Definition int (s : string) : option Z :=
  if max_str_digits <? digit_count s then None
  else
    match lstrip s with
    | String "+" s' => digits 0 false s'
    | String "-" s' => option_map Z.opp (digits 0 false s')
    | s' => digits 0 false s'
    end.

(** *** [str], truth values, [or] *)

(** [str] of an integer.  The interpreter refuses to print an integer of more
    than [max_str_digits] digits; none reaches [str] in this program, since
    [int] and the JSON decoder refuse such a literal first. *)
Definition str_int (z : Z) : string := NilZero.string_of_int (Z.to_int z).

Definition truthy (v : value) : bool :=
  match v with
  | JNull => false
  | JBool b => b
  | JInt z => negb (z =? 0)
  | JFloat f => float_nonzero f
  | JStr s => negb (String.eqb s "")
  | JArr l => match l with [] => false | _ => true end
  | JObj l => match l with [] => false | _ => true end
  end.

(** [x or y]: [x] when it is truthy, else [y]. *)
Definition or_ (x y : value) : value := if truthy x then x else y.

Definition hex_digit (n : nat) : ascii :=
  ascii_of_nat (if (n <? 10)%nat then 48 + n else 87 + n).

(** One character of a string literal as [repr] writes it inside the quote
    character [q].  This is the builtin on ASCII characters.  Bytes from 128
    up belong to characters outside ASCII, which the builtin leaves as they
    are only when they are printable; [printable] below marks the values on
    which [repr] and [str] are the builtins. *)
Definition repr_char (q c : ascii) : string :=
  let n := nat_of_ascii c in
  if Ascii.eqb c "\"%char then "\\"
  else if Ascii.eqb c q then String "\"%char (String q "")
  else if (n =? 9)%nat then "\t"
  else if (n =? 10)%nat then "\n"
  else if (n =? 13)%nat then "\r"
  else if ((n <? 32) || (n =? 127))%nat then
    String "\"%char (String "x" (String (hex_digit (n / 16)) (String (hex_digit (n mod 16)) "")))
  else String c "".

Fixpoint contains (c : ascii) (s : string) : bool :=
  match s with
  | String c' s' => Ascii.eqb c c' || contains c s'
  | EmptyString => false
  end.

Fixpoint repr_chars (q : ascii) (s : string) : string :=
  match s with
  | String c s' => repr_char q c ++ repr_chars q s'
  | EmptyString => EmptyString
  end.

Definition dquote : ascii := ascii_of_nat 34.

(** A string literal is written in single quotes, unless it holds a single
    quote and no double quote. *)
Definition repr_str (s : string) : string :=
  let q := if contains "'" s && negb (contains dquote s) then dquote else "'"%char in
  String q (repr_chars q s ++ String q "").

Fixpoint repr (v : value) : string :=
  match v with
  | JNull => "None"
  | JBool true => "True"
  | JBool false => "False"
  | JInt z => str_int z
  | JFloat f => float_repr f
  | JStr s => repr_str s
  | JArr l =>
      "[" ++ (fix elems (l : list value) : string :=
                match l with
                | [] => ""
                | x :: tl =>
                    match tl with
                    | [] => repr x
                    | _ => repr x ++ ", " ++ elems tl
                    end
                end) l ++ "]"
  | JObj items =>
      "{" ++ (fix pairs (l : list (string * value)) : string :=
                match l with
                | [] => ""
                | (k, x) :: tl =>
                    match tl with
                    | [] => repr_str k ++ ": " ++ repr x
                    | _ => repr_str k ++ ": " ++ repr x ++ ", " ++ pairs tl
                    end
                end) items ++ "}"
  end.

Definition str (v : value) : string :=
  match v with
  | JStr s => s
  | _ => repr v
  end.

Fixpoint distinct (keys : list string) : bool :=
  match keys with
  | [] => true
  | k :: tl => negb (existsb (String.eqb k) tl) && distinct tl
  end.

(** The values whose [str] is modelled exactly: every string in them is
    ASCII, every integer has at most [max_str_digits] digits, and the keys of
    an object are distinct. *)
Fixpoint printable (v : value) : bool :=
  match v with
  | JNull => true
  | JBool _ => true
  | JInt z => digit_count (str_int z) <=? max_str_digits
  | JFloat f => is_ascii (float_repr f)
  | JStr s => is_ascii s
  | JArr l =>
      (fix all (l : list value) : bool :=
         match l with
         | [] => true
         | x :: tl => printable x && all tl
         end) l
  | JObj items =>
      distinct (map fst items)
      && (fix all (l : list (string * value)) : bool :=
            match l with
            | [] => true
            | (k, x) :: tl => is_ascii k && printable x && all tl
            end) items
  end.

(** *** Subscription, iteration, comparison *)

Fixpoint lookup (key : string) (items : list (string * value)) : option value :=
  match items with
  | [] => None
  | (k, v) :: tl => if String.eqb k key then Some v else lookup key tl
  end.

(** [o[key]] for a string [key]. *)
Definition getitem (o : value) (key : string) : result value :=
  match o with
  | JObj items =>
      match lookup key items with
      | Some v => Ok v
      | None => Raise (KeyError key)
      end
  | JArr _ => Raise (TypeError "list indices must be integers or slices, not str")
  | JStr _ => Raise (TypeError "string indices must be integers")
  | _ => Raise (TypeError "object is not subscriptable")
  end.

Fixpoint chars (s : string) : list value :=
  match s with
  | String c s' => JStr (String c "") :: chars s'
  | EmptyString => []
  end.

(** What a [for] loop over [v] visits: the elements of a list, the keys of a
    dict, the characters of a string. *)
Definition iter (v : value) : result (list value) :=
  match v with
  | JArr l => Ok l
  | JObj items => Ok (map (fun kv => JStr (fst kv)) items)
  | JStr s => Ok (chars s)
  | _ => Raise (TypeError "object is not iterable")
  end.

(** [v == s] for a string [s]. *)
Definition eq_str (v : value) (s : string) : bool :=
  match v with
  | JStr s' => String.eqb s' s
  | _ => false
  end.

(** [urllib.parse.urlunparse] on [str] components; [None] and the empty
    string are both falsy. *)
Definition uses_netloc : list string :=
  [""; "ftp"; "http"; "gopher"; "nntp"; "telnet"; "imap"; "wais"; "file";
   "mms"; "https"; "shttp"; "snews"; "prospero"; "rtsp"; "rtspu"; "rsync";
   "svn"; "svn+ssh"; "sftp"; "nfs"; "git"; "git+ssh"; "ws"; "wss"].

Definition nonempty (o : option string) : option string :=
  match o with
  | Some "" => None
  | _ => o
  end.

Definition urlunparse (scheme netloc path : string)
    (params query fragment : option string) : string :=
  let url := match nonempty params with Some p => path ++ ";" ++ p | None => path end in
  let url :=
    if negb (String.eqb netloc "")
       || (negb (String.eqb scheme "")
           && existsb (String.eqb scheme) uses_netloc
           && negb (String.eqb (substring 0 2 url) "//"))
    then
      let url := if negb (String.eqb url "") && negb (String.eqb (substring 0 1 url) "/")
                 then "/" ++ url else url in
      "//" ++ netloc ++ url
    else url in
  let url := if negb (String.eqb scheme "") then scheme ++ ":" ++ url else url in
  let url := match nonempty query with Some q => url ++ "?" ++ q | None => url end in
  match nonempty fragment with Some f => url ++ "#" ++ f | None => url end.

End Py.

(** ** rich: tables *)

Module Rich.
Import Py.

Record Table := mkTable { columns : list string; rows : list (list string) }.

Definition Table_ : Table := mkTable [] [].

Definition add_column (t : Table) (header : string) : Table :=
  mkTable (columns t ++ [header]) (rows t).

(** A cell is given as a string, or as [None] for an empty cell; any other
    value is refused. *)
Fixpoint cells (renderables : list value) : result (list string) :=
  match renderables with
  | [] => Ok []
  | JStr s :: tl =>
      match cells tl with Ok l => Ok (s :: l) | Raise e => Raise e end
  | JNull :: tl =>
      match cells tl with Ok l => Ok ("" :: l) | Raise e => Raise e end
  | _ :: _ =>
      Raise (NotRenderableError "a string or other renderable object is required")
  end.

Definition add_row (t : Table) (renderables : list value) : result Table :=
  match cells renderables with
  | Ok l => Ok (mkTable (columns t) (rows t ++ [l]))
  | Raise e => Raise e
  end.

(** What the process writes to its standard output. *)
Inductive output :=
| Line (s : string)
| Rendered (t : Table).

End Rich.

(** ** requests: sessions over a device *)

Module Requests.
Import Py.

Inductive method := GET | PUT | POST.

Record HTTPDigestAuth := mkAuth { username : string; password : string }.

(** One call of [Session.get], [Session.put] or [Session.post]: what the
    session hands to the transport. *)
Record request := mkRequest {
  verb : method;
  url : string;
  req_headers : list (string * string);
  req_auth : option HTTPDigestAuth;
  req_json : option value
}.

(** [parsed] is what [json.loads] makes of [text], [None] when [text] is not
    JSON. *)
Record Response := mkResponse {
  status_code : Z;
  text : string;
  parsed : option value
}.

Inductive reply :=
| Responded (r : Response)
| Unreachable (msg : string).

(** The world outside the process: the requests made so far, the device
    (its answer may depend on everything it was sent before), and the
    standard output. *)
Record World := mkWorld {
  sent : list request;
  device : list request -> request -> reply;
  stdout : list Rich.output
}.

(** Computations that may raise and that act on the world. *)
Definition M (A : Type) : Type := World -> result A * World.

Definition ret {A} (a : A) : M A := fun w => (Ok a, w).

Definition raise {A} (e : exn) : M A := fun w => (Raise e, w).

Definition bind {A B} (c : M A) (k : A -> M B) : M B :=
  fun w =>
    match c w with
    | (Ok a, w') => k a w'
    | (Raise e, w') => (Raise e, w')
    end.

Definition lift {A} (r : result A) : M A := fun w => (r, w).

Definition print (s : string) : M unit :=
  fun w => (Ok tt, mkWorld (sent w) (device w) (stdout w ++ [Rich.Line s])).

(** [rich.print] of a table.  rich reads the text of a cell as console
    markup, whose tags are written in square brackets, and refuses a cell
    with an ill-formed tag; this is the printing of a table whose cells hold
    no opening bracket, which is all a statement about a printed table may
    rely on. *)
Definition rprint (t : Rich.Table) : M unit :=
  fun w => (Ok tt, mkWorld (sent w) (device w) (stdout w ++ [Rich.Rendered t])).

Record Session := mkSession {
  auth : option HTTPDigestAuth;
  headers : list (string * string)
}.

Definition request_ (s : Session) (m : method) (u : string) (json : option value)
  : M Response :=
  fun w =>
    let rq := mkRequest m u (headers s) (auth s) json in
    let w' := mkWorld (sent w ++ [rq]) (device w) (stdout w) in
    match device w (sent w) rq with
    | Responded r => (Ok r, w')
    | Unreachable msg => (Raise (ConnectionError msg), w')
    end.

Definition get (s : Session) (u : string) : M Response := request_ s GET u None.
Definition put (s : Session) (u : string) (json : value) : M Response :=
  request_ s PUT u (Some json).
Definition post (s : Session) (u : string) : M Response := request_ s POST u None.

(** [Response.raise_for_status]: client errors are 400 to 499, server errors
    500 to 599. *)
Definition is_error (status : Z) : bool :=
  ((400 <=? status) && (status <? 500)) || ((500 <=? status) && (status <? 600)).

Definition raise_for_status (r : Response) : M unit :=
  if is_error (status_code r) then raise (HTTPError (status_code r) (text r))
  else ret tt.

(** [Response.json]. *)
Definition json (r : Response) : M value :=
  match parsed r with
  | Some v => ret v
  | None => raise (JSONDecodeError (text r))
  end.

End Requests.

Declare Scope py_scope.
Notation "x <- c ;; k" := (Requests.bind c (fun x => k))
  (at level 61, c at next level, right associativity) : py_scope.
Local Open Scope py_scope.

(** ** The client: class [DLIPDU] *)

Module DLIPDU.
Import Py Requests.

Record t := mk { s : Session; host : string }.

Definition __init__ (host : string) (auth : HTTPDigestAuth) : t :=
  mk (mkSession (Some auth) [("X-CSRF", "X")]) host.

Definition _pathto (self : t) (endpoint : string) : string :=
  urlunparse "http" (host self) endpoint None None None.

Definition set_state (self : t) (outlet_idx : Z) (state : bool) : M unit :=
  r <- put (s self)
         (_pathto self ("/restapi/relay/outlets/" ++ str_int outlet_idx ++ "/state/"))
         (JBool state) ;;
  raise_for_status r.

Definition on (self : t) (outlet_idx : Z) : M unit :=
  set_state self outlet_idx true.

Definition off (self : t) (outlet_idx : Z) : M unit :=
  set_state self outlet_idx true.

Definition cycle (self : t) (outlet_idx : Z) : M unit :=
  r <- post (s self)
         (_pathto self ("/restapi/relay/outlets/" ++ str_int outlet_idx ++ "/cycle/")) ;;
  raise_for_status r.

Definition configured_state (self : t) (outlet_idx : Z) : M value :=
  r <- get (s self)
         (_pathto self ("/restapi/relay/outlets/" ++ str_int outlet_idx ++ "/state/")) ;;
  json r.

Definition physical_state (self : t) (outlet_idx : Z) : M value :=
  r <- get (s self)
         (_pathto self
            ("/restapi/relay/outlets/" ++ str_int outlet_idx ++ "/physical_state/")) ;;
  json r.

Definition outlets (self : t) : M value :=
  r <- get (s self) (_pathto self "/restapi/relay/outlets/") ;;
  json r.

(** The loop of [_outlet2idx] from position [i] on: the first [o] with
    [o['name'] == outlet] ends it. *)
Fixpoint find_outlet (outlet : string) (i : Z) (os : list value) : result Z :=
  match os with
  | [] => Raise (KeyError ("no outlet called `" ++ outlet ++ "` exists"))
  | o :: tl =>
      match getitem o "name" with
      | Ok name => if eq_str name outlet then Ok i else find_outlet outlet (i + 1) tl
      | Raise e => Raise e
      end
  end.

Definition _outlet2idx (self : t) (outlet : string) : M Z :=
  match int outlet with
  | Some n => ret n
  | None =>
      (* find outlet with this name *)
      outlets <- outlets self ;;
      os <- lift (iter outlets) ;;
      lift (find_outlet outlet 0 os)
  end.

End DLIPDU.

(** ** The commands *)

Module Cli.
Import Py Requests.

(** [click.Choice]: the argument is one of the choices, as written. *)
Definition Choice (choices : list string) (v : string) : M string :=
  if existsb (String.eqb v) choices then ret v
  else raise (BadParameter v).

Definition set (pdu : DLIPDU.t) (outlet state : string) : M unit :=
  state <- Choice ["off"; "on"] state ;;
  idx <- DLIPDU._outlet2idx pdu outlet ;;
  DLIPDU.set_state pdu idx (String.eqb state "on").

Definition cycle (pdu : DLIPDU.t) (outlet : string) : M unit :=
  idx <- DLIPDU._outlet2idx pdu outlet ;;
  DLIPDU.cycle pdu idx.

Definition configured (pdu : DLIPDU.t) (outlet : string) : M unit :=
  idx <- DLIPDU._outlet2idx pdu outlet ;;
  v <- DLIPDU.configured_state pdu idx ;;
  print (str v).

Definition physical (pdu : DLIPDU.t) (outlet : string) : M unit :=
  idx <- DLIPDU._outlet2idx pdu outlet ;;
  v <- DLIPDU.physical_state pdu idx ;;
  print (str v).

Definition _on (x : value) : string := if truthy x then "on" else "off".

(** The placeholder of the delay column, U+301C. *)
Definition wave_dash : string :=
  String (ascii_of_nat 227) (String (ascii_of_nat 128) (String (ascii_of_nat 156) "")).

(** The header of the delay column: [cycle], a space, U+0394 and [t]. *)
Definition delay_header : string :=
  "cycle " ++ String (ascii_of_nat 206) (String (ascii_of_nat 148) "t").

(** The arguments of one [add_row] call, evaluated left to right. *)
Definition row (i : Z) (outlet : value) : result (list value) :=
  match getitem outlet "name" with
  | Raise e => Raise e
  | Ok name =>
      match getitem outlet "state" with
      | Raise e => Raise e
      | Ok state =>
          match getitem outlet "physical_state" with
          | Raise e => Raise e
          | Ok physical_state =>
              match getitem outlet "cycle_delay" with
              | Raise e => Raise e
              | Ok cycle_delay =>
                  Ok [JStr (str_int i); name; JStr (_on state);
                      JStr (_on physical_state);
                      JStr (str (or_ cycle_delay (JStr wave_dash)))]
              end
          end
      end
  end.

Fixpoint add_rows (table : Rich.Table) (i : Z) (os : list value) : result Rich.Table :=
  match os with
  | [] => Ok table
  | outlet :: tl =>
      match row i outlet with
      | Raise e => Raise e
      | Ok renderables =>
          match Rich.add_row table renderables with
          | Raise e => Raise e
          | Ok table' => add_rows table' (i + 1) tl
          end
      end
  end.

Definition outlets (pdu : DLIPDU.t) : M unit :=
  let table := Rich.Table_ in
  let table := Rich.add_column table "idx" in
  let table := Rich.add_column table "name" in
  let table := Rich.add_column table "configured" in
  let table := Rich.add_column table "physical" in
  let table := Rich.add_column table delay_header in
  outlets <- DLIPDU.outlets pdu ;;
  os <- lift (iter outlets) ;;
  table <- lift (add_rows table 0 os) ;;
  rprint table.

End Cli.

(** ** The default configuration path: [default_config] *)

Module Config.
Import Py.

(** A [pathlib] path, as the sequence of its parts. *)
Definition Path := list string.

(** What [confdir] can be: a [str] taken from the environment, or a path. *)
Inductive operand :=
| Str (s : string)
| APath (p : Path).

(** [a / name] for a relative one-part [name]: a path gains the part; a
    [str] has no such operator. *)
Definition truediv (a : operand) (name : string) : result operand :=
  match a with
  | APath p => Ok (APath (p ++ [name])%list)
  | Str _ => Raise (TypeError "unsupported operand type(s) for /: 'str' and 'str'")
  end.

Fixpoint environ_lookup (key : string) (environ : list (string * string))
  : option string :=
  match environ with
  | [] => None
  | (k, v) :: tl => if String.eqb k key then Some v else environ_lookup key tl
  end.

(** [os.environ.get(key, default)]. *)
Definition environ_get (environ : list (string * string)) (key : string)
    (default : operand) : operand :=
  match environ_lookup key environ with
  | Some v => Str v
  | None => default
  end.

(** [home] is what [Path.home()] returns. *)
Definition default_config (environ : list (string * string)) (home : Path)
  : result operand :=
  match truediv (APath home) ".config" with
  | Raise e => Raise e
  | Ok default =>
      let confdir := environ_get environ "XDG_CONFIG_HOME" default in
      truediv confdir "dli.cfg"
  end.

End Config.

(** ** Vocabulary of the statements *)

Import Py Requests.

(** The request a session of [self] makes for verb [m], endpoint [endpoint]
    and JSON body [body]. *)
Definition call (self : DLIPDU.t) (m : method) (endpoint : string)
    (body : option value) : request :=
  mkRequest m ("http://" ++ DLIPDU.host self ++ endpoint)
    (headers (DLIPDU.s self)) (auth (DLIPDU.s self)) body.

Definition state_endpoint (i : Z) : string :=
  "/restapi/relay/outlets/" ++ str_int i ++ "/state/".
Definition physical_endpoint (i : Z) : string :=
  "/restapi/relay/outlets/" ++ str_int i ++ "/physical_state/".
Definition cycle_endpoint (i : Z) : string :=
  "/restapi/relay/outlets/" ++ str_int i ++ "/cycle/".
Definition outlets_endpoint : string := "/restapi/relay/outlets/".

(** What the device answers to [rq] in world [w]. *)
Definition answer (w : World) (rq : request) : reply := device w (sent w) rq.

(** The outlet [o] is an object whose [name] is the string [tok]. *)
Definition name_is (tok : string) (o : value) : Prop :=
  getitem o "name" = Ok (JStr tok).

Definition has_name (o : value) : Prop :=
  exists v, getitem o "name" = Ok v.

Definition not_found (tok : string) : exn :=
  KeyError ("no outlet called `" ++ tok ++ "` exists").

(** The world once [rq] has been sent. *)
Definition after (w : World) (rq : request) : World :=
  mkWorld (sent w ++ [rq]) (device w) (stdout w).

(** The outcome of a write: the reply, through [raise_for_status]. *)
Definition checked (rp : reply) : result unit :=
  match rp with
  | Responded r =>
      if is_error (status_code r) then Raise (HTTPError (status_code r) (text r))
      else Ok tt
  | Unreachable msg => Raise (ConnectionError msg)
  end.

(** The outcome of a read: the reply, through [json]. *)
Definition decoded (rp : reply) : result value :=
  match rp with
  | Responded r =>
      match parsed r with
      | Some v => Ok v
      | None => Raise (JSONDecodeError (text r))
      end
  | Unreachable msg => Raise (ConnectionError msg)
  end.

(** *** Devices and worlds used as concrete inputs *)

Definition outlet (name : string) (state physical_state : bool)
    (cycle_delay : value) : value :=
  JObj [("name", JStr name); ("state", JBool state);
        ("physical_state", JBool physical_state); ("cycle_delay", cycle_delay)].

(** A device that gives the same answer to everything. *)
Definition always (r : reply) : list request -> request -> reply :=
  fun _ _ => r.

Definition fresh (d : list request -> request -> reply) : World := mkWorld [] d [].

Definition reporting (status : Z) (v : value) : World :=
  fresh (always (Responded (mkResponse status "" (Some v)))).

Definition answering (status : Z) (body : string) : World :=
  fresh (always (Responded (mkResponse status body None))).

Definition pdu0 : DLIPDU.t := DLIPDU.__init__ "pdu.lan" (mkAuth "admin" "1234").

Definition three_outlets : list value :=
  [outlet "lamp" true true JNull; outlet "pump" false false (JInt 5);
   outlet "fan" true false JNull].

Definition twin_outlets : list value :=
  [outlet "pump" true true JNull; outlet "lamp" false false JNull;
   outlet "pump" true false JNull].

Definition digit_named : list value :=
  [outlet "3" true true JNull; outlet "lamp" false false JNull].

(** *** Outlets as the device documents them

    An outlet with a name, two switches and an optional whole number of
    seconds, and the JSON object the device reports for it. *)

Module Outlet.

Record t := mk {
  name : string;
  state : bool;
  physical_state : bool;
  cycle_delay : option Z
}.

Definition to_json (o : t) : value :=
  outlet (name o) (state o) (physical_state o)
    (match cycle_delay o with Some z => JInt z | None => JNull end).

End Outlet.

(** An outlet whose name holds no opening bracket, so that no cell of its
    row is read as markup, and whose delay the interpreter can print. *)
Definition plain_outlet (o : Outlet.t) : bool :=
  negb (contains "[" (Outlet.name o))
  && match Outlet.cycle_delay o with
     | Some z => digit_count (str_int z) <=? max_str_digits
     | None => true
     end.

Definition on_off (b : bool) : string := if b then "on" else "off".

(** The delay cell the command shows: the number, except that zero, like an
    absent delay, shows as the placeholder. *)
Definition shown_delay (d : option Z) : string :=
  match d with
  | Some z => if z =? 0 then Cli.wave_dash else str_int z
  | None => Cli.wave_dash
  end.

Fixpoint table_rows (i : Z) (os : list Outlet.t) : list (list string) :=
  match os with
  | [] => []
  | o :: tl =>
      [str_int i; Outlet.name o; on_off (Outlet.state o);
       on_off (Outlet.physical_state o); shown_delay (Outlet.cycle_delay o)]
      :: table_rows (i + 1) tl
  end.

Definition table_columns : list string :=
  ["idx"; "name"; "configured"; "physical"; Cli.delay_header].

(** *** Requests of a client, and a device that stores what it is sent *)

Definition outlets_base (self : DLIPDU.t) : string :=
  "http://" ++ DLIPDU.host self ++ "/restapi/relay/outlets/".

(** [rq] carries the credentials and the headers of the session of [self]
    and addresses the outlets of its host. *)
Definition stamped (self : DLIPDU.t) (rq : request) : Prop :=
  req_auth rq = auth (DLIPDU.s self)
  /\ req_headers rq = headers (DLIPDU.s self)
  /\ String.prefix (outlets_base self) (url rq) = true.

(** Running [c] in [w] adds the requests [news] to those sent, and nothing
    else changes but the output. *)
Definition sends {A : Type} (c : M A) (w : World) (news : list request) : Prop :=
  sent (snd (c w)) = (sent w ++ news)%list /\ device (snd (c w)) = device w.

(** The JSON body of the last PUT to [u] among [history]. *)
Fixpoint last_put (u : string) (history : list request) : option value :=
  match history with
  | [] => None
  | rq :: tl =>
      match last_put u tl with
      | Some v => Some v
      | None =>
          match verb rq, req_json rq with
          | PUT, Some v => if String.eqb (url rq) u then Some v else None
          | _, _ => None
          end
      end
  end.

(** A device that accepts every write and answers a GET with the value last
    PUT to the same URL (404 when there was none). *)
Definition relay_device (history : list request) (rq : request) : reply :=
  match verb rq with
  | GET =>
      match last_put (url rq) history with
      | Some v => Responded (mkResponse 200 "" (Some v))
      | None => Responded (mkResponse 404 "" None)
      end
  | _ => Responded (mkResponse 204 "" None)
  end.

(** The number a run of decimal digits denotes, continuing from [acc]. *)
Fixpoint value_acc (d : Decimal.uint) (acc : Z) : Z :=
  match d with
  | Decimal.Nil => acc
  | Decimal.D0 d' => value_acc d' (10 * acc)
  | Decimal.D1 d' => value_acc d' (10 * acc + 1)
  | Decimal.D2 d' => value_acc d' (10 * acc + 2)
  | Decimal.D3 d' => value_acc d' (10 * acc + 3)
  | Decimal.D4 d' => value_acc d' (10 * acc + 4)
  | Decimal.D5 d' => value_acc d' (10 * acc + 5)
  | Decimal.D6 d' => value_acc d' (10 * acc + 6)
  | Decimal.D7 d' => value_acc d' (10 * acc + 7)
  | Decimal.D8 d' => value_acc d' (10 * acc + 8)
  | Decimal.D9 d' => value_acc d' (10 * acc + 9)
  end.

(** ** Properties *)

(** *** Transport *)

Lemma pathto_abs (self : DLIPDU.t) (c : ascii) (rest : string) :
  c <> "/"%char ->
  DLIPDU._pathto self (String "/" (String c rest))
  = "http://" ++ DLIPDU.host self ++ String "/" (String c rest).
Proof.
  intros Hc. unfold DLIPDU._pathto, urlunparse.
  assert (Hsub : String.eqb (substring 0 2 (String "/" (String c rest))) "//" = false).
  { cbn. destruct (Ascii.eqb_spec c "/"); [contradiction | reflexivity]. }
  cbn [nonempty]. rewrite Hsub.
  destruct (DLIPDU.host self) as [|a h]; reflexivity.
Qed.

Lemma request_spec (s : Session) (m : method) (u : string) (j : option value)
    (w : World) :
  request_ s m u j w
  = (match device w (sent w) (mkRequest m u (headers s) (auth s) j) with
     | Responded r => Ok r
     | Unreachable msg => Raise (ConnectionError msg)
     end,
     mkWorld (sent w ++ [mkRequest m u (headers s) (auth s) j]) (device w) (stdout w)).
Proof.
  unfold request_.
  destruct (device w (sent w) (mkRequest m u (headers s) (auth s) j)); reflexivity.
Qed.

Lemma is_error_range (status : Z) :
  is_error status = true <-> 400 <= status < 600.
Proof. unfold is_error. lia. Qed.

Lemma pathto_outlets (self : DLIPDU.t) (tail : string) :
  DLIPDU._pathto self ("/restapi/relay/outlets/" ++ tail)
  = "http://" ++ DLIPDU.host self ++ "/restapi/relay/outlets/" ++ tail.
Proof. refine (pathto_abs self "r" _ _). discriminate. Qed.

(** *** What each method of the client does in a world *)

Ltac run_request :=
  unfold bind, put, post, get; rewrite request_spec;
  unfold answer, checked, decoded, after, call;
  rewrite ?pathto_outlets;
  match goal with
  | |- context [device ?w ?t ?rq] => destruct (device w t rq) as [r | msg]
  end;
  try reflexivity.

Lemma set_state_spec (self : DLIPDU.t) (i : Z) (b : bool) (w : World) :
  let rq := call self PUT (state_endpoint i) (Some (JBool b)) in
  DLIPDU.set_state self i b w = (checked (answer w rq), after w rq).
Proof.
  cbv zeta. unfold DLIPDU.set_state, state_endpoint. run_request.
  unfold raise_for_status. destruct (is_error (status_code r)); reflexivity.
Qed.

Lemma cycle_spec (self : DLIPDU.t) (i : Z) (w : World) :
  let rq := call self POST (cycle_endpoint i) None in
  DLIPDU.cycle self i w = (checked (answer w rq), after w rq).
Proof.
  cbv zeta. unfold DLIPDU.cycle, cycle_endpoint. run_request.
  unfold raise_for_status. destruct (is_error (status_code r)); reflexivity.
Qed.

Lemma configured_state_spec (self : DLIPDU.t) (i : Z) (w : World) :
  let rq := call self GET (state_endpoint i) None in
  DLIPDU.configured_state self i w = (decoded (answer w rq), after w rq).
Proof.
  cbv zeta. unfold DLIPDU.configured_state, state_endpoint. run_request.
  unfold json. destruct (parsed r); reflexivity.
Qed.

Lemma physical_state_spec (self : DLIPDU.t) (i : Z) (w : World) :
  let rq := call self GET (physical_endpoint i) None in
  DLIPDU.physical_state self i w = (decoded (answer w rq), after w rq).
Proof.
  cbv zeta. unfold DLIPDU.physical_state, physical_endpoint. run_request.
  unfold json. destruct (parsed r); reflexivity.
Qed.

Lemma outlets_spec (self : DLIPDU.t) (w : World) :
  let rq := call self GET outlets_endpoint None in
  DLIPDU.outlets self w = (decoded (answer w rq), after w rq).
Proof.
  cbv zeta. unfold DLIPDU.outlets, outlets_endpoint.
  change "/restapi/relay/outlets/" with ("/restapi/relay/outlets/" ++ "").
  run_request.
  unfold json. destruct (parsed r); reflexivity.
Qed.

Local Open Scope list_scope.

(** *** The convenience wrappers *)

(** C1 (the code departs from the claim).  The claim wants [off] to write the
    state false.  In the code [off] is the same computation as [on]: for every
    outlet index it issues one PUT to the state endpoint whose JSON body is
    true, never false. *)
Theorem off_writes_true (self : DLIPDU.t) (i : Z) (w : World) :
  DLIPDU.off self i w = DLIPDU.on self i w
  /\ sent (snd (DLIPDU.off self i w))
     = sent w ++ [call self PUT (state_endpoint i) (Some (JBool true))]
  /\ sent (snd (DLIPDU.off self i w))
     <> sent w ++ [call self PUT (state_endpoint i) (Some (JBool false))].
Proof.
  split; [reflexivity |].
  unfold DLIPDU.off. rewrite set_state_spec. cbn [snd after sent].
  split; [reflexivity |].
  intros H. apply app_inv_head in H. discriminate H.
Qed.

(** *** Writes *)

(** C4.  When the device answers the PUT of [set_state] with response [r],
    the call returns normally exactly when the status of [r] is not an error
    status (400 to 599), and on an error status it raises an HTTP error that
    carries the status and the body of [r]. *)
Theorem set_state_status (self : DLIPDU.t) (i : Z) (b : bool) (w : World)
    (r : Response) :
  answer w (call self PUT (state_endpoint i) (Some (JBool b))) = Responded r ->
  (fst (DLIPDU.set_state self i b w) = Ok tt <-> ~ 400 <= status_code r < 600)
  /\ (400 <= status_code r < 600 ->
      fst (DLIPDU.set_state self i b w) = Raise (HTTPError (status_code r) (text r))).
Proof.
  intros Hr. rewrite set_state_spec. cbn [fst]. rewrite Hr. unfold checked.
  pose proof (is_error_range (status_code r)) as He.
  destruct (is_error (status_code r)).
  - split.
    + split; [discriminate |]. intros Hn. exfalso. apply Hn. apply He. reflexivity.
    + reflexivity.
  - split.
    + split; [| reflexivity]. intros _ Hs. apply He in Hs. discriminate.
    + intros Hs. apply He in Hs. discriminate.
Qed.

Lemma set_state_status_witness :
  fst (DLIPDU.set_state pdu0 2 true (answering 200 "")) = Ok tt
  /\ fst (DLIPDU.set_state pdu0 2 true (answering 500 "relay fault"))
     = Raise (HTTPError 500 "relay fault").
Proof.
  split.
  - apply (set_state_status pdu0 2 true (answering 200 "")
             (mkResponse 200 "" None) eq_refl).
    cbn. lia.
  - apply (set_state_status pdu0 2 true (answering 500 "relay fault")
             (mkResponse 500 "relay fault" None) eq_refl).
    cbn. lia.
Defined.

(** C7.  [cycle] sends exactly one request, a POST to the cycle endpoint of
    the outlet, and its outcome is read off the reply to that request alone:
    an HTTP error on an error status, a normal return otherwise.  Nothing is
    asked about the outlet, so two worlds that answer the POST alike give the
    same outcome whatever delay the outlet is configured with. *)
Theorem cycle_one_post (self : DLIPDU.t) (i : Z) (w : World) :
  let rq := mkRequest POST
              ("http://" ++ DLIPDU.host self ++ "/restapi/relay/outlets/"
                 ++ str_int i ++ "/cycle/")
              (headers (DLIPDU.s self)) (auth (DLIPDU.s self)) None in
  sent (snd (DLIPDU.cycle self i w)) = sent w ++ [rq]
  /\ (forall r, answer w rq = Responded r ->
        fst (DLIPDU.cycle self i w)
        = if is_error (status_code r)
          then Raise (HTTPError (status_code r) (text r)) else Ok tt)
  /\ (forall w', answer w' rq = answer w rq ->
        fst (DLIPDU.cycle self i w') = fst (DLIPDU.cycle self i w)).
Proof.
  cbv zeta. split; [| split].
  - rewrite cycle_spec. reflexivity.
  - intros r Hr. rewrite cycle_spec. cbn [fst].
    unfold call, cycle_endpoint. rewrite Hr. reflexivity.
  - intros w' Hw. rewrite !cycle_spec. cbn [fst].
    unfold call, cycle_endpoint. rewrite Hw. reflexivity.
Qed.

Lemma cycle_one_post_witness :
  sent (snd (DLIPDU.cycle pdu0 0 (answering 200 "")))
  = [mkRequest POST "http://pdu.lan/restapi/relay/outlets/0/cycle/"
       [("X-CSRF", "X")] (Some (mkAuth "admin" "1234")) None]
  /\ fst (DLIPDU.cycle pdu0 0 (answering 200 "")) = Ok tt
  /\ fst (DLIPDU.cycle pdu0 0 (answering 503 "busy")) = Raise (HTTPError 503 "busy").
Proof.
  split; [| split].
  - apply (cycle_one_post pdu0 0 (answering 200 "")).
  - apply (proj1 (proj2 (cycle_one_post pdu0 0 (answering 200 "")))
             (mkResponse 200 "" None) eq_refl).
  - apply (proj1 (proj2 (cycle_one_post pdu0 0 (answering 503 "busy")))
             (mkResponse 503 "busy" None) eq_refl).
Defined.

(** *** Resolving an outlet *)

Lemma eq_str_true (v : value) (tok : string) :
  eq_str v tok = true <-> v = JStr tok.
Proof.
  destruct v; cbn; try (split; [discriminate | intros H; discriminate H]).
  rewrite String.eqb_eq. split; [intros -> | intros [= ->]]; reflexivity.
Qed.

Lemma find_outlet_ok (tok : string) (os : list value) :
  forall k i,
    DLIPDU.find_outlet tok k os = Ok i ->
    exists n o,
      i = k + Z.of_nat n
      /\ nth_error os n = Some o
      /\ name_is tok o
      /\ forall m o', (m < n)%nat -> nth_error os m = Some o' -> ~ name_is tok o'.
Proof.
  induction os as [| o tl IH]; intros k i H; cbn in H; [discriminate |].
  destruct (getitem o "name") as [name | e] eqn:Hname; [| discriminate].
  destruct (eq_str name tok) eqn:Heq.
  - injection H as <-. apply eq_str_true in Heq. subst name.
    exists 0%nat, o. repeat split; [lia | assumption |]. intros m o' Hm. lia.
  - destruct (IH _ _ H) as (n & o1 & Hi & Hnth & Hn & Hfirst).
    exists (S n), o1. repeat split; [lia | assumption | assumption |].
    intros [| m] o' Hm Hnth'.
    + cbn in Hnth'. injection Hnth' as <-. unfold name_is. rewrite Hname.
      intros [= ->]. cbn in Heq. rewrite String.eqb_refl in Heq. discriminate.
    + apply (Hfirst m); [lia | assumption].
Qed.

Lemma find_outlet_found (tok : string) (os : list value) :
  Forall has_name os ->
  (exists o, In o os /\ name_is tok o) ->
  forall k, exists i, DLIPDU.find_outlet tok k os = Ok i.
Proof.
  induction 1 as [| o tl [v Hv] Hall IH]; intros (o1 & Hin & Hn) k.
  - destruct Hin.
  - cbn. rewrite Hv. destruct (eq_str v tok) eqn:Heq; [eexists; reflexivity |].
    apply IH. destruct Hin as [<- | Hin].
    + unfold name_is in Hn. rewrite Hv in Hn. injection Hn as ->.
      cbn in Heq. rewrite String.eqb_refl in Heq. discriminate.
    + exists o1. split; assumption.
Qed.

Lemma find_outlet_none (tok : string) (os : list value) :
  Forall has_name os ->
  (forall o, In o os -> ~ name_is tok o) ->
  forall k, DLIPDU.find_outlet tok k os = Raise (not_found tok).
Proof.
  induction 1 as [| o tl [v Hv] Hall IH]; intros Hno k; [reflexivity |].
  cbn. rewrite Hv. destruct (eq_str v tok) eqn:Heq.
  - apply eq_str_true in Heq. subst v. exfalso.
    apply (Hno o); [left; reflexivity | exact Hv].
  - apply IH. intros o1 Hin. apply Hno. right. exact Hin.
Qed.

(** The path of [_outlet2idx] taken by a token that is no integer. *)
Lemma outlet2idx_scan (self : DLIPDU.t) (tok : string) (w : World) :
  int tok = None ->
  DLIPDU._outlet2idx self tok w
  = (match decoded (answer w (call self GET outlets_endpoint None)) with
     | Ok v =>
         match iter v with
         | Ok os => DLIPDU.find_outlet tok 0 os
         | Raise e => Raise e
         end
     | Raise e => Raise e
     end,
     after w (call self GET outlets_endpoint None)).
Proof.
  intros Hint. unfold DLIPDU._outlet2idx. rewrite Hint.
  unfold bind. rewrite outlets_spec. cbv zeta.
  destruct (decoded _) as [v | e]; [| reflexivity].
  unfold lift. destruct (iter v); reflexivity.
Qed.

(** C2.  A token that [int] accepts is returned as the integer it denotes;
    the world is left as it was, so no request is sent and the names of the
    outlets play no part. *)
Theorem outlet2idx_numeric (self : DLIPDU.t) (tok : string) (n : Z) (w : World) :
  int tok = Some n ->
  DLIPDU._outlet2idx self tok w = (Ok n, w).
Proof.
  intros Hint. unfold DLIPDU._outlet2idx. rewrite Hint. reflexivity.
Qed.

Lemma outlet2idx_numeric_witness :
  name_is "3" (outlet "3" true true JNull)
  /\ DLIPDU._outlet2idx pdu0 "3" (reporting 200 (JArr digit_named))
     = (Ok 3, reporting 200 (JArr digit_named)).
Proof.
  split; [reflexivity |].
  apply (outlet2idx_numeric pdu0 "3" 3 (reporting 200 (JArr digit_named))).
  reflexivity.
Defined.

(** C3.  For an ASCII token that is no integer, against a device that reports
    a list of outlets each having a name: when some outlet is named by the
    token the result is the position of an outlet with exactly that name,
    and when none is the call fails with the not-found key error. *)
Theorem outlet2idx_by_name (self : DLIPDU.t) (tok : string) (w : World)
    (r : Response) (os : list value) :
  is_ascii tok = true ->
  int tok = None ->
  answer w (call self GET outlets_endpoint None) = Responded r ->
  parsed r = Some (JArr os) ->
  Forall has_name os ->
  ((exists o, In o os /\ name_is tok o) ->
   exists n o,
     fst (DLIPDU._outlet2idx self tok w) = Ok (Z.of_nat n)
     /\ nth_error os n = Some o /\ name_is tok o)
  /\ ((forall o, In o os -> ~ name_is tok o) ->
      fst (DLIPDU._outlet2idx self tok w) = Raise (not_found tok)).
Proof.
  intros _ Hint Hr Hp Hall. rewrite (outlet2idx_scan _ _ _ Hint). cbn [fst].
  rewrite Hr. unfold decoded. rewrite Hp. cbn [iter]. split.
  - intros Hex. destruct (find_outlet_found tok os Hall Hex 0) as [i Hi].
    destruct (find_outlet_ok _ _ _ _ Hi) as (n & o & -> & Hnth & Hn & _).
    exists n, o. rewrite Hi. auto.
  - intros Hno. apply find_outlet_none; assumption.
Qed.

Lemma outlet2idx_by_name_witness :
  (exists n o,
     fst (DLIPDU._outlet2idx pdu0 "pump" (reporting 200 (JArr three_outlets)))
     = Ok (Z.of_nat n)
     /\ nth_error three_outlets n = Some o /\ name_is "pump" o)
  /\ fst (DLIPDU._outlet2idx pdu0 "missing" (reporting 200 (JArr three_outlets)))
     = Raise (not_found "missing").
Proof.
  assert (Hall : Forall has_name three_outlets).
  { repeat constructor; eexists; reflexivity. }
  split.
  - apply (outlet2idx_by_name pdu0 "pump" (reporting 200 (JArr three_outlets))
             (mkResponse 200 "" (Some (JArr three_outlets))) three_outlets
             eq_refl eq_refl eq_refl eq_refl Hall).
    exists (outlet "pump" false false (JInt 5)). split.
    + right. left. reflexivity.
    + reflexivity.
  - apply (outlet2idx_by_name pdu0 "missing" (reporting 200 (JArr three_outlets))
             (mkResponse 200 "" (Some (JArr three_outlets))) three_outlets
             eq_refl eq_refl eq_refl eq_refl Hall).
    intros o [<- | [<- | [<- | []]]]; discriminate.
Defined.

(** The two lookups of the specification, run. *)
Example resolve_pump :
  fst (DLIPDU._outlet2idx pdu0 "pump" (reporting 200 (JArr three_outlets))) = Ok 1.
Proof. reflexivity. Qed.

Example resolve_missing :
  fst (DLIPDU._outlet2idx pdu0 "missing" (reporting 200 (JArr three_outlets)))
  = Raise (KeyError "no outlet called `missing` exists").
Proof. reflexivity. Qed.

(** C5, as stated, fails.  Over a device that reports three outlets the
    numeric tokens 7 and -1 resolve to 7 and -1, both outside the range of
    positions; and where two outlets are both named pump (positions 0 and 2)
    the lookup of pump returns 0 without failing. *)
Lemma outlet2idx_unchecked :
  (fst (DLIPDU._outlet2idx pdu0 "7" (reporting 200 (JArr three_outlets))) = Ok 7
   /\ ~ 0 <= 7 < Z.of_nat (length three_outlets))
  /\ (fst (DLIPDU._outlet2idx pdu0 "-1" (reporting 200 (JArr three_outlets))) = Ok (-1)
      /\ ~ 0 <= -1 < Z.of_nat (length three_outlets))
  /\ (fst (DLIPDU._outlet2idx pdu0 "pump" (reporting 200 (JArr twin_outlets))) = Ok 0
      /\ (exists o, nth_error twin_outlets 0 = Some o /\ name_is "pump" o)
      /\ (exists o, nth_error twin_outlets 2 = Some o /\ name_is "pump" o)).
Proof.
  repeat split; try reflexivity; try (cbn; lia);
    eexists; split; reflexivity.
Qed.

(** C5, amended.  Whenever [_outlet2idx] returns an index for an ASCII
    token: for a numeric
    token it is the integer the token denotes, whatever the number of outlets,
    and nothing was sent; for any other token the device reported a list of
    outlets, the index is a position in that list, the outlet there has
    exactly the token as its name, and no outlet before it has (of several
    outlets sharing the name the first is returned). *)
Theorem outlet2idx_index (self : DLIPDU.t) (tok : string) (w : World) (i : Z) :
  is_ascii tok = true ->
  fst (DLIPDU._outlet2idx self tok w) = Ok i ->
  match int tok with
  | Some n => i = n /\ snd (DLIPDU._outlet2idx self tok w) = w
  | None =>
      exists r os o,
        answer w (call self GET outlets_endpoint None) = Responded r
        /\ parsed r = Some (JArr os)
        /\ 0 <= i < Z.of_nat (length os)
        /\ nth_error os (Z.to_nat i) = Some o
        /\ name_is tok o
        /\ forall m o', (m < Z.to_nat i)%nat -> nth_error os m = Some o' ->
                        ~ name_is tok o'
  end.
Proof.
  intros _ H. destruct (int tok) as [n |] eqn:Hint.
  - rewrite (outlet2idx_numeric _ _ _ _ Hint) in *. cbn in *.
    injection H as ->. split; reflexivity.
  - rewrite (outlet2idx_scan _ _ _ Hint) in H. cbn [fst] in H.
    unfold decoded in H.
    destruct (answer w _) as [r | msg]; [| discriminate].
    destruct (parsed r) as [v |] eqn:Hp; [| discriminate].
    assert (Hos : exists os, v = JArr os /\ DLIPDU.find_outlet tok 0 os = Ok i).
    { destruct v as [| b | z | f | s | l | items]; cbn in H; try discriminate.
      - destruct s; cbn in H; discriminate.
      - exists l. split; [reflexivity | assumption].
      - destruct items; cbn in H; discriminate. }
    destruct Hos as (os & -> & Hfind).
    destruct (find_outlet_ok _ _ _ _ Hfind) as (n & o & -> & Hnth & Hn & Hfirst).
    exists r, os, o. rewrite Z.add_0_l, Nat2Z.id.
    repeat split; try assumption; try lia.
    apply Nat2Z.inj_lt. apply nth_error_Some. rewrite Hnth. discriminate.
Qed.

Lemma outlet2idx_index_witness :
  (exists r os o,
     answer (reporting 200 (JArr twin_outlets)) (call pdu0 GET outlets_endpoint None)
     = Responded r
     /\ parsed r = Some (JArr os)
     /\ 0 <= 0 < Z.of_nat (length os)
     /\ nth_error os (Z.to_nat 0) = Some o
     /\ name_is "pump" o
     /\ forall m o', (m < Z.to_nat 0)%nat -> nth_error os m = Some o' ->
                     ~ name_is "pump" o')
  /\ (7 = 7 /\ snd (DLIPDU._outlet2idx pdu0 "7" (reporting 200 (JArr three_outlets)))
               = reporting 200 (JArr three_outlets)).
Proof.
  split.
  - exact (outlet2idx_index pdu0 "pump" (reporting 200 (JArr twin_outlets)) 0
             eq_refl eq_refl).
  - exact (outlet2idx_index pdu0 "7" (reporting 200 (JArr three_outlets)) 7
             eq_refl eq_refl).
Defined.

(** *** Reads *)

(** C6.  For a client built from any host and credentials, [outlets] sends
    exactly one request, a GET to the outlets endpoint of that host, and
    returns the value the reply parses to as it is: the list in the order of
    the device, so that position and index agree. *)
Theorem outlets_one_get (host user pass : string) (w : World) :
  let pdu := DLIPDU.__init__ host (mkAuth user pass) in
  let rq := mkRequest GET ("http://" ++ host ++ "/restapi/relay/outlets/")
              [("X-CSRF", "X")] (Some (mkAuth user pass)) None in
  sent (snd (DLIPDU.outlets pdu w)) = sent w ++ [rq]
  /\ forall r v,
       answer w rq = Responded r -> parsed r = Some v ->
       fst (DLIPDU.outlets pdu w) = Ok v.
Proof.
  cbv zeta. rewrite outlets_spec. cbv zeta. split; [reflexivity |].
  intros r v Hr Hp. cbn [fst]. unfold call, outlets_endpoint. cbn [DLIPDU.__init__
    DLIPDU.host DLIPDU.s headers auth]. rewrite Hr. unfold decoded. rewrite Hp.
  reflexivity.
Qed.

Lemma outlets_one_get_witness :
  sent (snd (DLIPDU.outlets pdu0 (reporting 200 (JArr three_outlets))))
  = [mkRequest GET "http://pdu.lan/restapi/relay/outlets/"
       [("X-CSRF", "X")] (Some (mkAuth "admin" "1234")) None]
  /\ fst (DLIPDU.outlets pdu0 (reporting 200 (JArr three_outlets)))
     = Ok (JArr three_outlets).
Proof.
  split.
  - apply (outlets_one_get "pdu.lan" "admin" "1234" (reporting 200 (JArr three_outlets))).
  - apply (proj2 (outlets_one_get "pdu.lan" "admin" "1234"
                    (reporting 200 (JArr three_outlets)))
             (mkResponse 200 "" (Some (JArr three_outlets))) (JArr three_outlets)
             eq_refl eq_refl).
Defined.

(** C9.  The three reads never raise an HTTP error: whatever response the
    device gives, the outcome is the JSON value of its body (or the decoding
    error when the body is no JSON), and the status code plays no part. *)
Theorem reads_ignore_status (self : DLIPDU.t) (i : Z) (w : World) :
  (forall st body,
      fst (DLIPDU.configured_state self i w) <> Raise (HTTPError st body)
      /\ fst (DLIPDU.physical_state self i w) <> Raise (HTTPError st body)
      /\ fst (DLIPDU.outlets self w) <> Raise (HTTPError st body))
  /\ (forall r,
        answer w (call self GET (state_endpoint i) None) = Responded r ->
        fst (DLIPDU.configured_state self i w)
        = match parsed r with
          | Some v => Ok v
          | None => Raise (JSONDecodeError (text r))
          end)
  /\ (forall r,
        answer w (call self GET (physical_endpoint i) None) = Responded r ->
        fst (DLIPDU.physical_state self i w)
        = match parsed r with
          | Some v => Ok v
          | None => Raise (JSONDecodeError (text r))
          end)
  /\ (forall r,
        answer w (call self GET outlets_endpoint None) = Responded r ->
        fst (DLIPDU.outlets self w)
        = match parsed r with
          | Some v => Ok v
          | None => Raise (JSONDecodeError (text r))
          end).
Proof.
  rewrite configured_state_spec, physical_state_spec, outlets_spec. cbv zeta.
  cbn [fst]. repeat split;
    try (intros r Hr; rewrite Hr; reflexivity);
    unfold decoded;
    match goal with
    | |- context [answer ?w ?rq] => destruct (answer w rq) as [r | msg]
    end;
    try destruct (parsed r); discriminate.
Qed.

Lemma reads_ignore_status_witness :
  fst (DLIPDU.configured_state pdu0 2 (reporting 500 (JBool true))) = Ok (JBool true)
  /\ fst (DLIPDU.physical_state pdu0 2 (reporting 404 (JBool false))) = Ok (JBool false)
  /\ fst (DLIPDU.outlets pdu0 (reporting 503 (JArr three_outlets)))
     = Ok (JArr three_outlets).
Proof.
  split; [| split].
  - apply (proj1 (proj2 (reads_ignore_status pdu0 2 (reporting 500 (JBool true))))
             (mkResponse 500 "" (Some (JBool true))) eq_refl).
  - apply (proj1 (proj2 (proj2 (reads_ignore_status pdu0 2 (reporting 404 (JBool false)))))
             (mkResponse 404 "" (Some (JBool false))) eq_refl).
  - apply (proj2 (proj2 (proj2 (reads_ignore_status pdu0 2
                                  (reporting 503 (JArr three_outlets)))))
             (mkResponse 503 "" (Some (JArr three_outlets))) eq_refl).
Defined.

(** *** Commands *)

(** C10.  The command [set] calls [set_state] itself, with the truth value of
    the comparison of its state argument with the word on: once the outlet
    has resolved to an index, [set outlet off] is the write of false to that
    index and [set outlet on] the write of true. *)
Theorem set_sends_choice (pdu : DLIPDU.t) (tok : string) (w w' : World) (i : Z) :
  DLIPDU._outlet2idx pdu tok w = (Ok i, w') ->
  (Cli.set pdu tok "off" w = DLIPDU.set_state pdu i false w'
   /\ sent (snd (Cli.set pdu tok "off" w))
      = sent w' ++ [call pdu PUT (state_endpoint i) (Some (JBool false))])
  /\ (Cli.set pdu tok "on" w = DLIPDU.set_state pdu i true w'
      /\ sent (snd (Cli.set pdu tok "on" w))
         = sent w' ++ [call pdu PUT (state_endpoint i) (Some (JBool true))]).
Proof.
  intros Hidx.
  assert (Hoff : Cli.set pdu tok "off" w = DLIPDU.set_state pdu i false w').
  { unfold Cli.set, Cli.Choice, bind. cbn [existsb String.eqb Ascii.eqb Bool.eqb orb ret].
    rewrite Hidx. reflexivity. }
  assert (Hon : Cli.set pdu tok "on" w = DLIPDU.set_state pdu i true w').
  { unfold Cli.set, Cli.Choice, bind. cbn [existsb String.eqb Ascii.eqb Bool.eqb orb ret].
    rewrite Hidx. reflexivity. }
  rewrite Hoff, Hon, !set_state_spec. repeat split.
Qed.

Lemma set_sends_choice_witness :
  sent (snd (Cli.set pdu0 "pump" "off" (reporting 200 (JArr three_outlets))))
  = [call pdu0 GET outlets_endpoint None;
     call pdu0 PUT (state_endpoint 1) (Some (JBool false))]
  /\ sent (snd (Cli.set pdu0 "2" "on" (reporting 200 (JArr three_outlets))))
     = [call pdu0 PUT (state_endpoint 2) (Some (JBool true))].
Proof.
  split.
  - apply (proj2 (proj1 (set_sends_choice pdu0 "pump"
                           (reporting 200 (JArr three_outlets))
                           (after (reporting 200 (JArr three_outlets))
                              (call pdu0 GET outlets_endpoint None))
                           1 eq_refl))).
  - apply (proj2 (proj2 (set_sends_choice pdu0 "2"
                           (reporting 200 (JArr three_outlets))
                           (reporting 200 (JArr three_outlets))
                           2 eq_refl))).
Defined.

(** *** The table of outlets *)

Lemma row_of_outlet (i : Z) (o : Outlet.t) :
  Cli.row i (Outlet.to_json o)
  = Ok [JStr (str_int i); JStr (Outlet.name o); JStr (on_off (Outlet.state o));
        JStr (on_off (Outlet.physical_state o));
        JStr (shown_delay (Outlet.cycle_delay o))].
Proof.
  destruct o as [n st ph [z |]]; unfold Outlet.to_json, outlet, Cli.row; cbn.
  - unfold or_. cbn. destruct (z =? 0); destruct st, ph; reflexivity.
  - destruct st, ph; reflexivity.
Qed.

Lemma add_rows_outlets (os : list Outlet.t) :
  forall (table : Rich.Table) (i : Z),
    Cli.add_rows table i (map Outlet.to_json os)
    = Ok (Rich.mkTable (Rich.columns table) (Rich.rows table ++ table_rows i os)).
Proof.
  induction os as [| o tl IH]; intros table i.
  - cbn. rewrite app_nil_r. destruct table; reflexivity.
  - cbn [map Cli.add_rows table_rows]. rewrite row_of_outlet.
    unfold Rich.add_row. cbn [Rich.cells]. rewrite IH.
    cbn [Rich.columns Rich.rows]. rewrite <- app_assoc. reflexivity.
Qed.

(** X15.  For a device that reports outlets as it documents them (a name,
    two switches, an optional whole number of seconds), none of the names
    holding an opening bracket, the command [outlets]
    succeeds and prints one table: the five columns, and one row for each
    outlet in the order of the device, holding its position counted from 0,
    its name, on or off for each switch, and the delay, where an absent delay
    and a delay of zero both show as the placeholder. *)
Lemma outlets_table (pdu : DLIPDU.t) (w : World) (r : Response)
    (os : list Outlet.t) :
  Forall (fun o => plain_outlet o = true) os ->
  answer w (call pdu GET outlets_endpoint None) = Responded r ->
  parsed r = Some (JArr (map Outlet.to_json os)) ->
  fst (Cli.outlets pdu w) = Ok tt
  /\ stdout (snd (Cli.outlets pdu w))
     = stdout w ++ [Rich.Rendered (Rich.mkTable table_columns (table_rows 0 os))].
Proof.
  intros _ Hr Hp. unfold Cli.outlets, bind. rewrite outlets_spec. cbv zeta.
  rewrite Hr. unfold decoded. rewrite Hp. unfold lift. cbn [iter].
  rewrite add_rows_outlets. split; reflexivity.
Qed.

Lemma str_int_not_wave_dash (z : Z) : str_int z <> Cli.wave_dash.
Proof.
  unfold str_int, NilZero.string_of_int, NilZero.string_of_uint.
  destruct (Z.to_int z) as [d | d]; destruct d; cbn; discriminate.
Qed.

(** The row of the specification: an absent delay shows as the placeholder,
    which no number prints as. *)
Example outlets_row_default_delay :
  stdout (snd (Cli.outlets pdu0
                 (reporting 200 (JArr [outlet "A" true false JNull]))))
  = [Rich.Rendered
       (Rich.mkTable table_columns [["0"; "A"; "on"; "off"; Cli.wave_dash]])]
  /\ int Cli.wave_dash = None.
Proof. split; reflexivity. Qed.

Example outlets_row_numeric_delay :
  stdout (snd (Cli.outlets pdu0
                 (reporting 200 (JArr [outlet "A" true false (JInt 5)]))))
  = [Rich.Rendered (Rich.mkTable table_columns [["0"; "A"; "on"; "off"; "5"]])].
Proof. reflexivity. Qed.

(** C8 (the code departs from the claim).  The claim wants a numeric delay
    shown as its value and only an absent one as the placeholder.  For an
    outlet whose delay is the number 0 the command shows the placeholder, the
    same cell as for an absent delay, and not the text of 0. *)
Theorem zero_delay_shown_as_default :
  Cli.row 0 (outlet "A" true false (JInt 0))
  = Ok [JStr "0"; JStr "A"; JStr "on"; JStr "off"; JStr Cli.wave_dash]
  /\ stdout (snd (Cli.outlets pdu0
                    (reporting 200 (JArr [outlet "A" true false (JInt 0)]))))
     = [Rich.Rendered
          (Rich.mkTable table_columns [["0"; "A"; "on"; "off"; Cli.wave_dash]])]
  /\ Cli.row 0 (outlet "A" true false (JInt 0))
     = Cli.row 0 (outlet "A" true false JNull)
  /\ Cli.wave_dash <> str_int 0.
Proof.
  repeat split; try reflexivity. discriminate.
Qed.

(** *** The default configuration path *)

(** X1.  [default_config] returns the file [dli.cfg] in the directory
    [.config] of the home directory only when the environment has no
    [XDG_CONFIG_HOME]; when the variable is set, to any value, the value is a
    [str], the division by the file name has no meaning and the call raises
    a type error. *)
Theorem default_config_environment (environ : list (string * string))
    (home : Config.Path) :
  Config.default_config environ home
  = match Config.environ_lookup "XDG_CONFIG_HOME" environ with
    | Some _ =>
        Raise (TypeError "unsupported operand type(s) for /: 'str' and 'str'")
    | None => Ok (Config.APath (home ++ [".config"; "dli.cfg"]))
    end.
Proof.
  unfold Config.default_config, Config.environ_get. cbn [Config.truediv].
  destruct (Config.environ_lookup "XDG_CONFIG_HOME" environ); cbn.
  - reflexivity.
  - rewrite <- app_assoc. reflexivity.
Qed.

(** *** Every request of the client *)

Lemma prefix_refl (a : string) : String.prefix a a = true.
Proof.
  induction a as [| c a IH]; cbn; [reflexivity |].
  destruct (ascii_dec c c); [exact IH | contradiction].
Qed.

Lemma prefix_app (a b : string) : String.prefix a (a ++ b)%string = true.
Proof.
  induction a as [| c a IH]; cbn; [destruct b; reflexivity |].
  destruct (ascii_dec c c); [exact IH | contradiction].
Qed.

Lemma prefix_cong (a x y : string) :
  String.prefix x y = true -> String.prefix (a ++ x)%string (a ++ y)%string = true.
Proof.
  intros H. induction a as [| c a IH]; cbn; [exact H |].
  destruct (ascii_dec c c); [exact IH | contradiction].
Qed.

Lemma call_stamped (self : DLIPDU.t) (m : method) (tail : string)
    (body : option value) :
  stamped self (call self m ("/restapi/relay/outlets/" ++ tail) body).
Proof.
  unfold stamped, call, outlets_base. cbn [req_auth req_headers url].
  repeat split.
  apply (prefix_cong "http://"). apply prefix_cong. apply prefix_app.
Qed.

Lemma call_outlets_stamped (self : DLIPDU.t) (m : method) (body : option value) :
  stamped self (call self m outlets_endpoint body).
Proof.
  unfold stamped, call, outlets_base. cbn [req_auth req_headers url].
  repeat split. apply prefix_refl.
Qed.

(** X2.  Whatever method of a client built from a host and credentials is
    run, the single request it makes carries those credentials and the
    anti-forgery header, and its URL lies under the outlets of that host. *)
Theorem client_requests_stamped (host : string) (a : HTTPDigestAuth)
    (w : World) (i : Z) (b : bool) :
  let pdu := DLIPDU.__init__ host a in
  (forall rq, stamped pdu rq ->
     req_auth rq = Some a /\ req_headers rq = [("X-CSRF", "X")]
     /\ String.prefix ("http://" ++ host ++ "/restapi/relay/outlets/") (url rq) = true)
  /\ (exists rq, sends (DLIPDU.set_state pdu i b) w [rq] /\ stamped pdu rq)
  /\ (exists rq, sends (DLIPDU.on pdu i) w [rq] /\ stamped pdu rq)
  /\ (exists rq, sends (DLIPDU.off pdu i) w [rq] /\ stamped pdu rq)
  /\ (exists rq, sends (DLIPDU.cycle pdu i) w [rq] /\ stamped pdu rq)
  /\ (exists rq, sends (DLIPDU.configured_state pdu i) w [rq] /\ stamped pdu rq)
  /\ (exists rq, sends (DLIPDU.physical_state pdu i) w [rq] /\ stamped pdu rq)
  /\ (exists rq, sends (DLIPDU.outlets pdu) w [rq] /\ stamped pdu rq).
Proof.
  cbv zeta. split; [intros rq H; exact H |].
  unfold DLIPDU.on, DLIPDU.off, sends.
  rewrite !set_state_spec, cycle_spec, configured_state_spec,
    physical_state_spec, outlets_spec.
  cbv zeta. cbn [snd after sent device].
  repeat split; eexists; (split; [split; reflexivity |]);
    first [apply call_stamped | apply call_outlets_stamped].
Qed.

(** *** Failures of the lookup by name *)

Lemma getitem_no_http (o : value) (key : string) (st : Z) (body : string) :
  getitem o key <> Raise (HTTPError st body).
Proof.
  destruct o; cbn; try discriminate.
  destruct (lookup key items); discriminate.
Qed.

Lemma find_outlet_no_http (tok : string) (os : list value) (st : Z) (body : string) :
  forall k, DLIPDU.find_outlet tok k os <> Raise (HTTPError st body).
Proof.
  induction os as [| o tl IH]; intros k; cbn; [discriminate |].
  pose proof (getitem_no_http o "name" st body) as Hg.
  destruct (getitem o "name") as [v | e].
  - destruct (eq_str v tok); [discriminate | apply IH].
  - intros [= ->]. apply Hg. reflexivity.
Qed.

(** X3.  For an ASCII token that is no integer, the lookup by name costs
    one request whatever its outcome, the GET of
    the outlet list; the output is untouched, and since the status of the
    reply is never examined the lookup cannot end in an HTTP error. *)
Theorem name_lookup_one_get (self : DLIPDU.t) (tok : string) (w : World) :
  is_ascii tok = true ->
  int tok = None ->
  sends (DLIPDU._outlet2idx self tok) w [call self GET outlets_endpoint None]
  /\ stdout (snd (DLIPDU._outlet2idx self tok w)) = stdout w
  /\ forall st body,
       fst (DLIPDU._outlet2idx self tok w) <> Raise (HTTPError st body).
Proof.
  intros _ Hint. unfold sends. rewrite (outlet2idx_scan _ _ _ Hint).
  cbn [fst snd after sent device stdout].
  split; [split; reflexivity |]. split; [reflexivity |].
  intros st body. unfold decoded.
  destruct (answer w _) as [r | msg]; [| discriminate].
  destruct (parsed r) as [v |]; [| discriminate].
  destruct v; cbn [iter]; try discriminate; apply find_outlet_no_http.
Qed.

Lemma name_lookup_one_get_witness :
  sent (snd (DLIPDU._outlet2idx pdu0 "pump" (answering 401 "Unauthorized")))
  = [call pdu0 GET outlets_endpoint None]
  /\ fst (DLIPDU._outlet2idx pdu0 "pump" (answering 401 "Unauthorized"))
     <> Raise (HTTPError 401 "Unauthorized").
Proof.
  split.
  - apply (name_lookup_one_get pdu0 "pump" (answering 401 "Unauthorized")
             eq_refl eq_refl).
  - apply (name_lookup_one_get pdu0 "pump" (answering 401 "Unauthorized")
             eq_refl eq_refl).
Defined.

Lemma find_outlet_stops (tok : string) (pre : list value) (o : value)
    (post : list value) (e : exn) :
  Forall (fun p => exists v, getitem p "name" = Ok v /\ eq_str v tok = false) pre ->
  getitem o "name" = Raise e ->
  forall k, DLIPDU.find_outlet tok k (pre ++ o :: post) = Raise e.
Proof.
  intros Hpre Ho. induction Hpre as [| p tl (v & Hv & Hne) _ IH]; intros k; cbn.
  - rewrite Ho. reflexivity.
  - rewrite Hv, Hne. apply IH.
Qed.

(** X4.  For an ASCII token that is no integer, the scan reads the name of
    every outlet up to the first match.  If
    an outlet that comes before any match has no name (or is no object), the
    lookup ends in the error of that subscription, a key error for [name] or
    a type error, even when a later outlet bears the name. *)
Theorem lookup_stops_at_unnamed (self : DLIPDU.t) (tok : string) (w : World)
    (r : Response) (pre : list value) (o : value) (post : list value) (e : exn) :
  is_ascii tok = true ->
  int tok = None ->
  answer w (call self GET outlets_endpoint None) = Responded r ->
  parsed r = Some (JArr (pre ++ o :: post)) ->
  Forall (fun p => exists v, getitem p "name" = Ok v /\ eq_str v tok = false) pre ->
  getitem o "name" = Raise e ->
  fst (DLIPDU._outlet2idx self tok w) = Raise e.
Proof.
  intros _ Hint Hr Hp Hpre Ho. rewrite (outlet2idx_scan _ _ _ Hint). cbn [fst].
  rewrite Hr. unfold decoded. rewrite Hp. cbn [iter].
  apply find_outlet_stops; assumption.
Qed.

Lemma lookup_stops_at_unnamed_witness :
  fst (DLIPDU._outlet2idx pdu0 "pump"
         (reporting 200
            (JArr ([outlet "lamp" true true JNull]
                     ++ JObj [("state", JBool true)]
                     :: [outlet "pump" false false JNull]))))
  = Raise (KeyError "name").
Proof.
  apply (lookup_stops_at_unnamed pdu0 "pump"
           (reporting 200
              (JArr ([outlet "lamp" true true JNull]
                       ++ JObj [("state", JBool true)]
                       :: [outlet "pump" false false JNull])))
           (mkResponse 200 ""
              (Some (JArr ([outlet "lamp" true true JNull]
                             ++ JObj [("state", JBool true)]
                             :: [outlet "pump" false false JNull]))))
           [outlet "lamp" true true JNull] (JObj [("state", JBool true)])
           [outlet "pump" false false JNull] (KeyError "name")
           eq_refl eq_refl eq_refl eq_refl).
  - constructor; [| constructor]. exists (JStr "lamp"). split; reflexivity.
  - reflexivity.
Defined.

(** *** How the commands use the client *)

Lemma outlet2idx_cases (pdu : DLIPDU.t) (tok : string) (w : World) :
  (exists n, int tok = Some n /\ DLIPDU._outlet2idx pdu tok w = (Ok n, w))
  \/ (int tok = None
      /\ exists res,
           DLIPDU._outlet2idx pdu tok w
           = (res, after w (call pdu GET outlets_endpoint None))).
Proof.
  destruct (int tok) as [n |] eqn:Hint.
  - left. exists n. split; [reflexivity | apply outlet2idx_numeric; exact Hint].
  - right. split; [reflexivity |]. rewrite (outlet2idx_scan _ _ _ Hint).
    eexists. reflexivity.
Qed.

Lemma choice_cases (v : string) (w : World) :
  Cli.Choice ["off"; "on"] v w = (Ok v, w)
  \/ Cli.Choice ["off"; "on"] v w = (Raise (BadParameter v), w).
Proof.
  unfold Cli.Choice. destruct (existsb (String.eqb v) ["off"; "on"]);
    [left | right]; reflexivity.
Qed.

(** X5.  When the outlet cannot be resolved, each command ends in the error
    of the lookup, having sent the GET of the outlet list and nothing after
    it: no state is written, no cycle is started, nothing is printed. *)
Theorem failed_lookup_stops_command (pdu : DLIPDU.t) (tok : string) (w : World)
    (e : exn) :
  fst (DLIPDU._outlet2idx pdu tok w) = Raise e ->
  let stopped := (Raise e, after w (call pdu GET outlets_endpoint None)) in
  Cli.set pdu tok "on" w = stopped
  /\ Cli.set pdu tok "off" w = stopped
  /\ Cli.cycle pdu tok w = stopped
  /\ Cli.configured pdu tok w = stopped
  /\ Cli.physical pdu tok w = stopped.
Proof.
  intros H. cbv zeta.
  destruct (outlet2idx_cases pdu tok w) as [(n & _ & Hn) | (_ & res & Hres)].
  - rewrite Hn in H. discriminate.
  - rewrite Hres in H. cbn in H. subst res.
    unfold Cli.set, Cli.cycle, Cli.configured, Cli.physical, Cli.Choice, bind.
    cbn [existsb String.eqb Ascii.eqb Bool.eqb orb ret].
    rewrite Hres. repeat split.
Qed.

Lemma failed_lookup_stops_command_witness :
  sent (snd (Cli.set pdu0 "heater" "off" (reporting 200 (JArr three_outlets))))
  = [call pdu0 GET outlets_endpoint None]
  /\ fst (Cli.cycle pdu0 "heater" (reporting 200 (JArr three_outlets)))
     = Raise (not_found "heater").
Proof.
  pose proof (failed_lookup_stops_command pdu0 "heater"
                (reporting 200 (JArr three_outlets)) (not_found "heater") eq_refl)
    as (_ & Hoff & Hcycle & _).
  rewrite Hoff, Hcycle. split; reflexivity.
Defined.

Lemma sends_after_lookup {B : Type} (pdu : DLIPDU.t) (tok : string)
    (body : Z -> M B) (w : World) (opreq : Z -> request) :
  (forall i w1, sends (body i) w1 [opreq i]) ->
  exists news,
    sends (bind (DLIPDU._outlet2idx pdu tok) body) w news
    /\ (length news <= 2)%nat
    /\ forall rq, In rq news ->
         rq = call pdu GET outlets_endpoint None \/ exists i, rq = opreq i.
Proof.
  intros Hbody. unfold sends, bind.
  destruct (outlet2idx_cases pdu tok w) as [(n & _ & Hn) | (_ & res & Hres)].
  - rewrite Hn. destruct (Hbody n w) as (Hs & Hd).
    exists [opreq n]. repeat split; [exact Hs | exact Hd | cbn; lia |].
    intros rq [<- | []]. right. exists n. reflexivity.
  - rewrite Hres. destruct res as [i | e].
    + destruct (Hbody i (after w (call pdu GET outlets_endpoint None))) as (Hs & Hd).
      exists [call pdu GET outlets_endpoint None; opreq i].
      rewrite Hs, Hd. cbn. rewrite <- app_assoc.
      repeat split; [lia |].
      intros rq [<- | [<- | []]]; [left; reflexivity | right; exists i; reflexivity].
    + exists [call pdu GET outlets_endpoint None]. cbn.
      repeat split; [lia |]. intros rq [<- | []]. left. reflexivity.
Qed.

Lemma set_state_sends (pdu : DLIPDU.t) (b : bool) (i : Z) (w : World) :
  sends (DLIPDU.set_state pdu i b) w [call pdu PUT (state_endpoint i) (Some (JBool b))].
Proof. unfold sends. rewrite set_state_spec. split; reflexivity. Qed.

Lemma cycle_sends (pdu : DLIPDU.t) (i : Z) (w : World) :
  sends (DLIPDU.cycle pdu i) w [call pdu POST (cycle_endpoint i) None].
Proof. unfold sends. rewrite cycle_spec. split; reflexivity. Qed.

Lemma configured_body_sends (pdu : DLIPDU.t) (i : Z) (w : World) :
  sends (bind (DLIPDU.configured_state pdu i) (fun v => print (str v))) w
    [call pdu GET (state_endpoint i) None].
Proof.
  unfold sends, bind. rewrite configured_state_spec. cbv zeta.
  destruct (decoded _); split; reflexivity.
Qed.

Lemma physical_body_sends (pdu : DLIPDU.t) (i : Z) (w : World) :
  sends (bind (DLIPDU.physical_state pdu i) (fun v => print (str v))) w
    [call pdu GET (physical_endpoint i) None].
Proof.
  unfold sends, bind. rewrite physical_state_spec. cbv zeta.
  destruct (decoded _); split; reflexivity.
Qed.

Lemma outlets_cmd_sends (pdu : DLIPDU.t) (w : World) :
  sends (Cli.outlets pdu) w [call pdu GET outlets_endpoint None].
Proof.
  unfold sends, Cli.outlets, bind. rewrite outlets_spec. cbv zeta.
  destruct (decoded _) as [v | e]; [| split; reflexivity].
  unfold lift. destruct (iter v) as [os | e]; [| split; reflexivity].
  destruct (Cli.add_rows _ 0 os); split; reflexivity.
Qed.

Lemma set_sends (pdu : DLIPDU.t) (tok st : string) (w : World) :
  exists news,
    sends (Cli.set pdu tok st) w news
    /\ (length news <= 2)%nat
    /\ forall rq, In rq news ->
         rq = call pdu GET outlets_endpoint None
         \/ exists i, rq = call pdu PUT (state_endpoint i)
                             (Some (JBool (String.eqb st "on"))).
Proof.
  destruct (choice_cases st w) as [Hc | Hc].
  - assert (Heq : Cli.set pdu tok st w
                  = bind (DLIPDU._outlet2idx pdu tok)
                      (fun idx => DLIPDU.set_state pdu idx (String.eqb st "on")) w).
    { unfold Cli.set. unfold bind at 1. rewrite Hc. reflexivity. }
    destruct (sends_after_lookup pdu tok
                (fun idx => DLIPDU.set_state pdu idx (String.eqb st "on")) w
                (fun i => call pdu PUT (state_endpoint i)
                            (Some (JBool (String.eqb st "on"))))
                (fun i w1 => set_state_sends pdu _ i w1))
      as (news & Hs & Hrest).
    exists news. split; [| exact Hrest].
    unfold sends in *. rewrite Heq. exact Hs.
  - assert (Heq : Cli.set pdu tok st w = (Raise (BadParameter st), w)).
    { unfold Cli.set. unfold bind at 1. rewrite Hc. reflexivity. }
    exists []. unfold sends. rewrite Heq. cbn. rewrite app_nil_r.
    repeat split; [lia | intros rq []].
Qed.

(** X6.  Whatever its arguments and whatever the device does, a command
    sends at most two requests, and each of them carries the credentials and
    headers of the session and addresses the outlets of the host. *)
Theorem commands_send_at_most_two (pdu : DLIPDU.t) (tok st : string) (w : World)
    (c : M unit) :
  In c [Cli.set pdu tok st; Cli.cycle pdu tok; Cli.configured pdu tok;
        Cli.physical pdu tok; Cli.outlets pdu] ->
  exists news,
    sends c w news /\ (length news <= 2)%nat /\ Forall (stamped pdu) news.
Proof.
  intros [<- | [<- | [<- | [<- | [<- | []]]]]].
  - destruct (set_sends pdu tok st w) as (news & Hs & Hl & Hin).
    exists news. repeat split; [apply Hs | apply Hs | exact Hl |].
    apply Forall_forall. intros rq Hrq.
    destruct (Hin rq Hrq) as [-> | (i & ->)];
      [apply call_outlets_stamped | apply call_stamped].
  - destruct (sends_after_lookup pdu tok (fun idx => DLIPDU.cycle pdu idx) w
                (fun i => call pdu POST (cycle_endpoint i) None) (cycle_sends pdu))
      as (news & Hs & Hl & Hin).
    exists news. repeat split; [apply Hs | apply Hs | exact Hl |].
    apply Forall_forall. intros rq Hrq.
    destruct (Hin rq Hrq) as [-> | (i & ->)];
      [apply call_outlets_stamped | apply call_stamped].
  - destruct (sends_after_lookup pdu tok _ w _ (configured_body_sends pdu))
      as (news & Hs & Hl & Hin).
    exists news. repeat split; [apply Hs | apply Hs | exact Hl |].
    apply Forall_forall. intros rq Hrq.
    destruct (Hin rq Hrq) as [-> | (i & ->)];
      [apply call_outlets_stamped | apply call_stamped].
  - destruct (sends_after_lookup pdu tok _ w _ (physical_body_sends pdu))
      as (news & Hs & Hl & Hin).
    exists news. repeat split; [apply Hs | apply Hs | exact Hl |].
    apply Forall_forall. intros rq Hrq.
    destruct (Hin rq Hrq) as [-> | (i & ->)];
      [apply call_outlets_stamped | apply call_stamped].
  - exists [call pdu GET outlets_endpoint None].
    repeat split; try apply outlets_cmd_sends; [cbn; lia |].
    constructor; [apply call_outlets_stamped | constructor].
Qed.

Lemma commands_send_at_most_two_witness :
  exists news,
    sends (Cli.set pdu0 "fan" "off") (reporting 200 (JArr three_outlets)) news
    /\ (length news <= 2)%nat /\ Forall (stamped pdu0) news.
Proof.
  apply (commands_send_at_most_two pdu0 "fan" "off"
           (reporting 200 (JArr three_outlets))).
  left. reflexivity.
Defined.

(** X7.  The query commands never write: every request that [get
    configured], [get physical] and [outlets] send is a GET without a
    body. *)
Theorem queries_only_get (pdu : DLIPDU.t) (tok : string) (w : World) (c : M unit) :
  In c [Cli.configured pdu tok; Cli.physical pdu tok; Cli.outlets pdu] ->
  exists news,
    sends c w news
    /\ Forall (fun rq => verb rq = GET /\ req_json rq = None) news.
Proof.
  intros [<- | [<- | [<- | []]]].
  - destruct (sends_after_lookup pdu tok _ w _ (configured_body_sends pdu))
      as (news & Hs & _ & Hin).
    exists news. split; [exact Hs |]. apply Forall_forall. intros rq Hrq.
    destruct (Hin rq Hrq) as [-> | (i & ->)]; split; reflexivity.
  - destruct (sends_after_lookup pdu tok _ w _ (physical_body_sends pdu))
      as (news & Hs & _ & Hin).
    exists news. split; [exact Hs |]. apply Forall_forall. intros rq Hrq.
    destruct (Hin rq Hrq) as [-> | (i & ->)]; split; reflexivity.
  - exists [call pdu GET outlets_endpoint None].
    split; [apply outlets_cmd_sends |].
    constructor; [split; reflexivity | constructor].
Qed.

Lemma queries_only_get_witness :
  exists news,
    sends (Cli.physical pdu0 "lamp") (reporting 200 (JArr three_outlets)) news
    /\ Forall (fun rq => verb rq = GET /\ req_json rq = None) news.
Proof.
  apply (queries_only_get pdu0 "lamp" (reporting 200 (JArr three_outlets))).
  right. left. reflexivity.
Defined.

(** X8.  For a numeric outlet, [get configured] and [get physical] each send
    the one GET of the state (of the physical state) of that outlet and print
    one line, [str] of the value the device answered, for every value made of
    ASCII strings and of integers the interpreter can print; a JSON boolean
    is printed as the word True or False. *)
Theorem get_prints_value (pdu : DLIPDU.t) (tok : string) (n : Z) (w : World)
    (r : Response) (v : value) :
  int tok = Some n ->
  parsed r = Some v ->
  printable v = true ->
  (answer w (call pdu GET (state_endpoint n) None) = Responded r ->
   Cli.configured pdu tok w
   = (Ok tt, mkWorld (sent w ++ [call pdu GET (state_endpoint n) None]) (device w)
               (stdout w ++ [Rich.Line (str v)])))
  /\ (answer w (call pdu GET (physical_endpoint n) None) = Responded r ->
      Cli.physical pdu tok w
      = (Ok tt, mkWorld (sent w ++ [call pdu GET (physical_endpoint n) None]) (device w)
                  (stdout w ++ [Rich.Line (str v)])))
  /\ (forall b : bool, str (JBool b) = if b then "True" else "False")%string.
Proof.
  intros Hint Hp _. split; [| split].
  - intros Hr. unfold Cli.configured. unfold bind at 1.
    rewrite (outlet2idx_numeric _ _ _ _ Hint). unfold bind.
    rewrite configured_state_spec. cbv zeta. rewrite Hr. unfold decoded.
    rewrite Hp. reflexivity.
  - intros Hr. unfold Cli.physical. unfold bind at 1.
    rewrite (outlet2idx_numeric _ _ _ _ Hint). unfold bind.
    rewrite physical_state_spec. cbv zeta. rewrite Hr. unfold decoded.
    rewrite Hp. reflexivity.
  - intros []; reflexivity.
Qed.

Lemma get_prints_value_witness :
  stdout (snd (Cli.configured pdu0 "1" (reporting 200 (JBool true))))
  = [Rich.Line "True"]
  /\ stdout (snd (Cli.physical pdu0 "1" (reporting 200 (JBool false))))
     = [Rich.Line "False"].
Proof.
  split.
  - rewrite (proj1 (get_prints_value pdu0 "1" 1 (reporting 200 (JBool true))
                      (mkResponse 200 "" (Some (JBool true))) (JBool true)
                      eq_refl eq_refl eq_refl) eq_refl).
    reflexivity.
  - rewrite (proj1 (proj2 (get_prints_value pdu0 "1" 1 (reporting 200 (JBool false))
                             (mkResponse 200 "" (Some (JBool false))) (JBool false)
                             eq_refl eq_refl eq_refl)) eq_refl).
    reflexivity.
Defined.

(** *** The table, again *)

Lemma outlets_table_witness :
  stdout (snd (Cli.outlets pdu0
                 (reporting 200
                    (JArr (map Outlet.to_json
                             [Outlet.mk "lamp" true true None;
                              Outlet.mk "pump" false false (Some 5)])))))
  = [Rich.Rendered
       (Rich.mkTable table_columns
          [["0"; "lamp"; "on"; "on"; Cli.wave_dash];
           ["1"; "pump"; "off"; "off"; "5"]])].
Proof.
  apply (outlets_table pdu0
           (reporting 200
              (JArr (map Outlet.to_json
                       [Outlet.mk "lamp" true true None;
                        Outlet.mk "pump" false false (Some 5)])))
           (mkResponse 200 ""
              (Some (JArr (map Outlet.to_json
                             [Outlet.mk "lamp" true true None;
                              Outlet.mk "pump" false false (Some 5)]))))
           [Outlet.mk "lamp" true true None; Outlet.mk "pump" false false (Some 5)]
           ltac:(repeat constructor) eq_refl eq_refl).
Defined.

Lemma row_cells (i : Z) (o : value) (renderables : list value) (l : list string) :
  Cli.row i o = Ok renderables ->
  Rich.cells renderables = Ok l ->
  length l = 5%nat /\ nth_error l 0 = Some (str_int i).
Proof.
  unfold Cli.row. intros Hrow Hcells.
  destruct (getitem o "name") as [name |]; [| discriminate].
  destruct (getitem o "state"); [| discriminate].
  destruct (getitem o "physical_state"); [| discriminate].
  destruct (getitem o "cycle_delay"); [| discriminate].
  injection Hrow as <-. cbn in Hcells.
  destruct name; try discriminate; injection Hcells as <-; split; reflexivity.
Qed.

Lemma add_rows_shape (os : list value) :
  forall (table table' : Rich.Table) (i : Z),
    Cli.add_rows table i os = Ok table' ->
    exists new,
      table' = Rich.mkTable (Rich.columns table) (Rich.rows table ++ new)
      /\ length new = length os
      /\ forall k cells,
           nth_error new k = Some cells ->
           length cells = 5%nat
           /\ nth_error cells 0 = Some (str_int (i + Z.of_nat k)).
Proof.
  induction os as [| o tl IH]; intros table table' i H; cbn in H.
  - injection H as <-. exists []. rewrite app_nil_r.
    split; [destruct table; reflexivity |]. split; [reflexivity |].
    intros [| k] cells Hk; discriminate.
  - destruct (Cli.row i o) as [renderables |] eqn:Hrow; [| discriminate].
    unfold Rich.add_row in H.
    destruct (Rich.cells renderables) as [l |] eqn:Hcells; [| discriminate].
    destruct (row_cells _ _ _ _ Hrow Hcells) as (Hlen & Hfirst).
    apply IH in H. cbn [Rich.columns Rich.rows] in H.
    destruct H as (new & -> & Hl & Hnew). exists (l :: new).
    rewrite <- app_assoc. split; [reflexivity |]. split; [cbn; lia |].
    intros [| k] cells Hk; cbn in Hk.
    + injection Hk as <-. rewrite Z.add_0_r. split; assumption.
    + destruct (Hnew k cells Hk) as (H5 & H0). split; [exact H5 |].
      rewrite H0. f_equal. f_equal. lia.
Qed.

(** X9.  The command [outlets] prints all or nothing.  When it fails (the
    reply is no JSON, is no sequence, or one outlet lacks a field) the output
    is untouched; when it succeeds it has printed one table with the five
    columns and exactly one row of five cells for each element the device
    reported, in order, the first cell being the position counted from 0. *)
Theorem outlets_all_or_nothing (pdu : DLIPDU.t) (w : World) :
  (forall e, fst (Cli.outlets pdu w) = Raise e ->
             stdout (snd (Cli.outlets pdu w)) = stdout w)
  /\ (fst (Cli.outlets pdu w) = Ok tt ->
      exists r v os rows,
        answer w (call pdu GET outlets_endpoint None) = Responded r
        /\ parsed r = Some v /\ iter v = Ok os
        /\ stdout (snd (Cli.outlets pdu w))
           = stdout w ++ [Rich.Rendered (Rich.mkTable table_columns rows)]
        /\ length rows = length os
        /\ forall k cells,
             nth_error rows k = Some cells ->
             length cells = 5%nat
             /\ nth_error cells 0 = Some (str_int (Z.of_nat k))).
Proof.
  unfold Cli.outlets, bind. rewrite outlets_spec. cbv zeta. unfold decoded.
  destruct (answer w _) as [r | msg] eqn:Hr; [| split; [reflexivity | discriminate]].
  destruct (parsed r) as [v |] eqn:Hp; [| split; [reflexivity | discriminate]].
  unfold lift. destruct (iter v) as [os | e0] eqn:Hiter;
    [| split; [reflexivity | discriminate]].
  destruct (Cli.add_rows _ 0 os) as [table' | e0] eqn:Hadd;
    [| split; [reflexivity | discriminate]].
  split; [discriminate |]. intros _.
  destruct (add_rows_shape _ _ _ _ Hadd) as (new & -> & Hl & Hnew).
  exists r, v, os, new.
  split; [reflexivity |]. split; [exact Hp |]. split; [exact Hiter |].
  split; [reflexivity |]. split; [exact Hl |]. exact Hnew.
Qed.

Lemma outlets_all_or_nothing_witness :
  stdout (snd (Cli.outlets pdu0
                 (reporting 200
                    (JArr [outlet "lamp" true true JNull;
                           JObj [("name", JStr "pump"); ("state", JBool true)]]))))
  = [].
Proof.
  apply (proj1 (outlets_all_or_nothing pdu0
                  (reporting 200
                     (JArr [outlet "lamp" true true JNull;
                            JObj [("name", JStr "pump"); ("state", JBool true)]])))
           (KeyError "physical_state") eq_refl).
Defined.

(** *** Indices as text *)

Lemma value_acc_pos (d : Decimal.uint) :
  forall acc : positive, Z.pos (Pos.of_uint_acc d acc) = value_acc d (Z.pos acc).
Proof.
  induction d; intros acc; cbn [Pos.of_uint_acc value_acc];
    try reflexivity; rewrite IHd; f_equal; lia.
Qed.

Lemma value_acc_of_uint (d : Decimal.uint) : Z.of_N (Pos.of_uint d) = value_acc d 0.
Proof.
  induction d; cbn [Pos.of_uint value_acc]; try reflexivity;
    try exact IHd; cbn [Z.of_N]; rewrite value_acc_pos; reflexivity.
Qed.

Ltac read_digit :=
  match goal with
  | |- context [digit_of ?c] =>
      let v := eval vm_compute in (digit_of c) in
      change (digit_of c) with v
  end.

Lemma digits_of_uint (d : Decimal.uint) :
  forall acc b,
    d <> Decimal.Nil \/ b = true ->
    digits acc b (NilEmpty.string_of_uint d) = Some (value_acc d acc).
Proof.
  induction d; intros acc b Hb;
    cbn [NilEmpty.string_of_uint digits value_acc];
    try (read_digit; cbv iota; rewrite ?Z.add_0_r; apply IHd; right; reflexivity).
  destruct Hb as [Hb | ->]; [contradiction | reflexivity].
Qed.

Lemma digits_of_pos (p : positive) :
  digits 0 false (NilEmpty.string_of_uint (Pos.to_uint p)) = Some (Z.pos p).
Proof.
  rewrite digits_of_uint by (left; apply DecimalPos.Unsigned.to_uint_nonnil).
  rewrite <- value_acc_of_uint, DecimalPos.Unsigned.of_to. reflexivity.
Qed.

Lemma lstrip_digits (d : Decimal.uint) :
  d <> Decimal.Nil ->
  match lstrip (NilEmpty.string_of_uint d) with
  | String "+" s' => digits 0 false s'
  | String "-" s' => option_map Z.opp (digits 0 false s')
  | s' => digits 0 false s'
  end = digits 0 false (NilEmpty.string_of_uint d).
Proof.
  destruct d; intros Hd; [contradiction | ..]; reflexivity.
Qed.

Lemma str_int_pos (p : positive) :
  str_int (Z.pos p) = NilEmpty.string_of_uint (Pos.to_uint p).
Proof.
  unfold str_int. cbn [Z.to_int NilZero.string_of_int]. unfold NilZero.string_of_uint.
  pose proof (DecimalPos.Unsigned.to_uint_nonnil p) as Hn.
  destruct (Pos.to_uint p); [contradiction | ..]; reflexivity.
Qed.

Lemma str_int_neg (p : positive) :
  str_int (Z.neg p) = String "-" (NilEmpty.string_of_uint (Pos.to_uint p)).
Proof.
  unfold str_int. cbn [Z.to_int NilZero.string_of_int]. unfold NilZero.string_of_uint.
  pose proof (DecimalPos.Unsigned.to_uint_nonnil p) as Hn.
  destruct (Pos.to_uint p); [contradiction | ..]; reflexivity.
Qed.

Lemma int_str_int (z : Z) :
  digit_count (str_int z) <= max_str_digits -> int (str_int z) = Some z.
Proof.
  intros Hlen. unfold int.
  destruct (max_str_digits <? digit_count (str_int z)) eqn:Hlim; [lia |].
  destruct z as [| p | p].
  - reflexivity.
  - rewrite str_int_pos.
    rewrite lstrip_digits by apply DecimalPos.Unsigned.to_uint_nonnil.
    apply digits_of_pos.
  - rewrite str_int_neg. cbn [lstrip]. change (is_space "-") with false. cbv iota.
    rewrite digits_of_pos. reflexivity.
Qed.

(** X10.  Reading back the text of an integer gives the integer: for every
    index of at most 4300 digits, [int (str i)] is [i].  So the text shown in
    the index column of the table, given as the outlet of a command, resolves
    to that very index, without any request and without regard to names. *)
Theorem shown_index_resolves (pdu : DLIPDU.t) (w : World) (i : Z) :
  digit_count (str_int i) <= max_str_digits ->
  int (str_int i) = Some i
  /\ DLIPDU._outlet2idx pdu (str_int i) w = (Ok i, w).
Proof.
  intros Hlen. pose proof (int_str_int i Hlen) as Hint.
  split; [exact Hint | apply outlet2idx_numeric; exact Hint].
Qed.

Lemma shown_index_resolves_witness :
  int (str_int 17) = Some 17
  /\ DLIPDU._outlet2idx pdu0 (str_int 17) (reporting 200 (JArr three_outlets))
     = (Ok 17, reporting 200 (JArr three_outlets)).
Proof.
  apply (shown_index_resolves pdu0 (reporting 200 (JArr three_outlets)) 17).
  vm_compute. discriminate.
Defined.

(** *** One outlet, one URL *)

Lemma str_int_inj (i j : Z) : str_int i = str_int j -> i = j.
Proof.
  intros H. rewrite <- (DecimalZ.of_to i), <- (DecimalZ.of_to j). f_equal.
  assert (Hnil : forall z, Z.to_int z <> Decimal.Pos Decimal.Nil
                           /\ Z.to_int z <> Decimal.Neg Decimal.Nil).
  { intros [| p | p]; cbn; split; try discriminate;
      intros [= Hp]; exact (DecimalPos.Unsigned.to_uint_nonnil p Hp). }
  assert (Hs : Some (Z.to_int i) = Some (Z.to_int j)).
  { rewrite <- (NilZero.isi (Z.to_int i)) by apply Hnil.
    rewrite <- (NilZero.isi (Z.to_int j)) by apply Hnil.
    unfold str_int in H. rewrite H. reflexivity. }
  injection Hs as Hs. exact Hs.
Qed.

Lemma chars_append (a b : string) :
  list_ascii_of_string (a ++ b)
  = list_ascii_of_string a ++ list_ascii_of_string b.
Proof. induction a as [| c a IH]; cbn; [| rewrite IH]; reflexivity. Qed.

Lemma append_inv_tail (a b t : string) : (a ++ t = b ++ t)%string -> a = b.
Proof.
  intros H. apply (f_equal list_ascii_of_string) in H.
  rewrite !chars_append in H. apply app_inv_tail in H.
  rewrite <- (string_of_list_ascii_of_string a), H.
  apply string_of_list_ascii_of_string.
Qed.

Lemma append_inv_head (a x y : string) : (a ++ x = a ++ y)%string -> x = y.
Proof.
  induction a as [| c a IH]; cbn; intros H; [exact H |].
  injection H as H. apply IH. exact H.
Qed.

Lemma call_url_inj (self : DLIPDU.t) (m m' : method) (body body' : option value)
    (tail : string) (i j : Z) :
  url (call self m ("/restapi/relay/outlets/" ++ str_int i ++ tail) body)
  = url (call self m' ("/restapi/relay/outlets/" ++ str_int j ++ tail) body') ->
  i = j.
Proof.
  unfold call. cbn [url]. intros H.
  apply (append_inv_head "http://") in H. apply append_inv_head in H.
  apply (append_inv_head "/restapi/relay/outlets/") in H.
  apply append_inv_tail in H. apply str_int_inj. exact H.
Qed.

(** X11.  Different outlets have different URLs: the requests that the
    client makes for two different indices, for the state, the physical
    state and the cycle alike, never address the same URL, so an operation on
    one outlet cannot reach another. *)
Theorem distinct_outlets_distinct_urls (self : DLIPDU.t) (i j : Z) (b c : bool) :
  i <> j ->
  url (call self PUT (state_endpoint i) (Some (JBool b)))
  <> url (call self PUT (state_endpoint j) (Some (JBool c)))
  /\ url (call self PUT (state_endpoint i) (Some (JBool b)))
     <> url (call self GET (state_endpoint j) None)
  /\ url (call self GET (physical_endpoint i) None)
     <> url (call self GET (physical_endpoint j) None)
  /\ url (call self POST (cycle_endpoint i) None)
     <> url (call self POST (cycle_endpoint j) None).
Proof.
  intros Hij. unfold state_endpoint, physical_endpoint, cycle_endpoint.
  repeat split; intros H; apply Hij; exact (call_url_inj _ _ _ _ _ _ _ _ H).
Qed.

Lemma distinct_outlets_distinct_urls_witness :
  url (call pdu0 PUT (state_endpoint 1) (Some (JBool true)))
  <> url (call pdu0 GET (state_endpoint 11) None).
Proof.
  apply (distinct_outlets_distinct_urls pdu0 1 11 true true). discriminate.
Defined.

(** *** Against a device that stores what it is sent *)

Lemma last_put_app (u : string) (history : list request) (rq : request) :
  last_put u (history ++ [rq])
  = match verb rq, req_json rq with
    | PUT, Some v => if String.eqb (url rq) u then Some v else last_put u history
    | _, _ => last_put u history
    end.
Proof.
  induction history as [| h tl IH]; cbn [app last_put].
  - destruct (verb rq), (req_json rq); reflexivity.
  - rewrite IH. destruct (verb rq), (req_json rq); try reflexivity.
    destruct (String.eqb (url rq) u); reflexivity.
Qed.

Lemma set_state_relay (pdu : DLIPDU.t) (i : Z) (b : bool) (w : World) :
  device w = relay_device ->
  DLIPDU.set_state pdu i b w
  = (Ok tt, after w (call pdu PUT (state_endpoint i) (Some (JBool b)))).
Proof.
  intros Hd. rewrite set_state_spec. cbv zeta. unfold answer. rewrite Hd. reflexivity.
Qed.

Lemma configured_state_relay (pdu : DLIPDU.t) (i : Z) (w : World) :
  device w = relay_device ->
  fst (DLIPDU.configured_state pdu i w)
  = match last_put (url (call pdu GET (state_endpoint i) None)) (sent w) with
    | Some v => Ok v
    | None => Raise (JSONDecodeError "")
    end.
Proof.
  intros Hd. rewrite configured_state_spec. cbv zeta. cbn [fst]. unfold answer.
  rewrite Hd. unfold relay_device. cbn [verb call].
  destruct (last_put _ (sent w)); reflexivity.
Qed.

(** X12.  Against a device that stores the value last PUT to each URL and
    answers a GET with it, the writes and the reads of the client meet: after
    [set_state i b] the configured state of [i] reads [b], also when another
    outlet [j] was set in between; and after [off i] it reads true. *)
Theorem relay_round_trip (pdu : DLIPDU.t) (i j : Z) (b c : bool) (w : World) :
  device w = relay_device ->
  fst ((_ <- DLIPDU.set_state pdu i b ;; DLIPDU.configured_state pdu i) w)
  = Ok (JBool b)
  /\ (i <> j ->
      fst ((_ <- DLIPDU.set_state pdu i b ;;
            _ <- DLIPDU.set_state pdu j c ;;
            DLIPDU.configured_state pdu i) w)
      = Ok (JBool b))
  /\ fst ((_ <- DLIPDU.off pdu i ;; DLIPDU.configured_state pdu i) w)
     = Ok (JBool true).
Proof.
  intros Hd.
  assert (Hone : forall b', fst ((_ <- DLIPDU.set_state pdu i b' ;;
                                   DLIPDU.configured_state pdu i) w) = Ok (JBool b')).
  { intros b'. unfold bind. rewrite (set_state_relay _ _ _ _ Hd).
    rewrite configured_state_relay by exact Hd.
    cbn [after sent]. rewrite last_put_app. cbn [verb req_json call url].
    rewrite String.eqb_refl. reflexivity. }
  split; [apply Hone | split; [| apply (Hone true)]].
  intros Hij. unfold bind. rewrite (set_state_relay _ _ _ _ Hd).
  rewrite set_state_relay by exact Hd.
  rewrite configured_state_relay by exact Hd.
  cbn [after sent]. rewrite last_put_app.
  cbn [verb req_json]. destruct (String.eqb_spec
    (url (call pdu PUT (state_endpoint j) (Some (JBool c))))
    (url (call pdu GET (state_endpoint i) None))) as [Heq | _].
  - exfalso. apply Hij. symmetry.
    unfold state_endpoint in Heq. exact (call_url_inj _ _ _ _ _ _ _ _ Heq).
  - rewrite last_put_app. cbn [verb req_json call url].
    rewrite String.eqb_refl. reflexivity.
Qed.

Lemma relay_round_trip_witness :
  fst ((_ <- DLIPDU.set_state pdu0 1 false ;;
        _ <- DLIPDU.set_state pdu0 2 true ;;
        DLIPDU.configured_state pdu0 1) (fresh relay_device))
  = Ok (JBool false).
Proof.
  apply (proj1 (proj2 (relay_round_trip pdu0 1 2 false true (fresh relay_device)
                         eq_refl))).
  discriminate.
Defined.

(** *** What the commands print *)

Lemma lookup_keeps_stdout (pdu : DLIPDU.t) (tok : string) (w : World) :
  stdout (snd (DLIPDU._outlet2idx pdu tok w)) = stdout w.
Proof.
  destruct (outlet2idx_cases pdu tok w) as [(n & _ & ->) | (_ & res & ->)];
    reflexivity.
Qed.

(** X13.  The commands [set] and [cycle] never print, whatever happens, and
    a query command that ends in an error has printed nothing: a line of
    output always is an answer of the device. *)
Theorem silent_unless_answered (pdu : DLIPDU.t) (tok st : string) (w : World) :
  stdout (snd (Cli.set pdu tok st w)) = stdout w
  /\ stdout (snd (Cli.cycle pdu tok w)) = stdout w
  /\ (forall e, fst (Cli.configured pdu tok w) = Raise e ->
                stdout (snd (Cli.configured pdu tok w)) = stdout w)
  /\ (forall e, fst (Cli.physical pdu tok w) = Raise e ->
                stdout (snd (Cli.physical pdu tok w)) = stdout w).
Proof.
  pose proof (lookup_keeps_stdout pdu tok w) as Hl.
  unfold Cli.set, Cli.cycle, Cli.configured, Cli.physical.
  split; [| split; [| split]].
  - unfold bind at 1. destruct (choice_cases st w) as [-> | ->]; [| reflexivity].
    unfold bind. destruct (DLIPDU._outlet2idx pdu tok w) as [[i | e] w1];
      [| exact Hl]. rewrite set_state_spec. exact Hl.
  - unfold bind. destruct (DLIPDU._outlet2idx pdu tok w) as [[i | e] w1];
      [| exact Hl]. rewrite cycle_spec. exact Hl.
  - intros e. unfold bind.
    destruct (DLIPDU._outlet2idx pdu tok w) as [[i | e1] w1]; [| intros _; exact Hl].
    rewrite configured_state_spec. cbv zeta.
    destruct (decoded _); [discriminate | intros _; exact Hl].
  - intros e. unfold bind.
    destruct (DLIPDU._outlet2idx pdu tok w) as [[i | e1] w1]; [| intros _; exact Hl].
    rewrite physical_state_spec. cbv zeta.
    destruct (decoded _); [discriminate | intros _; exact Hl].
Qed.

Lemma silent_unless_answered_witness :
  stdout (snd (Cli.configured pdu0 "2" (answering 502 "Bad Gateway"))) = [].
Proof.
  apply (proj1 (proj2 (proj2 (silent_unless_answered pdu0 "2" "on"
                                (answering 502 "Bad Gateway"))))
           (JSONDecodeError "Bad Gateway") eq_refl).
Defined.

(** *** URLs *)

Lemma prefix_slash (c : ascii) (e : string) :
  String.prefix "/" (String c e) = Ascii.eqb c "/".
Proof.
  cbn [String.prefix]. destruct (ascii_dec "/" c) as [<- | Hc].
  - destruct e; reflexivity.
  - symmetry. apply Ascii.eqb_neq. congruence.
Qed.

Lemma append_empty_r (a : string) : (a ++ "")%string = a.
Proof. induction a as [| c a IH]; cbn; [| rewrite IH]; reflexivity. Qed.

(** X14.  For a client with a host, [_pathto] puts the endpoint after the
    scheme and the host: an endpoint that begins with a slash is appended as
    it is, any other endpoint that is not empty gets a slash before it, and
    the empty endpoint gives the bare address of the host. *)
Theorem pathto_shape (self : DLIPDU.t) (endpoint : string) :
  DLIPDU.host self <> "" ->
  (String.prefix "/" endpoint = true ->
   DLIPDU._pathto self endpoint = "http://" ++ DLIPDU.host self ++ endpoint)%string
  /\ (endpoint <> "" -> String.prefix "/" endpoint = false ->
      DLIPDU._pathto self endpoint
      = "http://" ++ DLIPDU.host self ++ "/" ++ endpoint)%string
  /\ (endpoint = "" ->
      DLIPDU._pathto self endpoint = "http://" ++ DLIPDU.host self)%string.
Proof.
  intros Hh. unfold DLIPDU._pathto, urlunparse. cbn [nonempty].
  destruct (DLIPDU.host self) as [| a h]; [contradiction |].
  destruct endpoint as [| c e].
  - split; [discriminate |]. split; [contradiction |]. intros _. cbn.
    rewrite append_empty_r. reflexivity.
  - rewrite prefix_slash.
    assert (Hsub : substring 0 1 (String c e) = String c "")
      by (destruct e; reflexivity).
    cbv zeta. rewrite Hsub. cbn [String.eqb negb orb andb].
    destruct (Ascii.eqb c "/") eqn:Hc.
    + split; [intros _; reflexivity |].
      split; [intros _ H; discriminate | discriminate].
    + split; [discriminate |]. split; [intros _ _; reflexivity | discriminate].
Qed.

Lemma pathto_shape_witness :
  DLIPDU._pathto pdu0 "status" = "http://pdu.lan/status"
  /\ DLIPDU._pathto pdu0 "/restapi/" = "http://pdu.lan/restapi/".
Proof.
  split.
  - apply (proj1 (proj2 (pathto_shape pdu0 "status" ltac:(discriminate)))).
    + discriminate.
    + reflexivity.
  - apply (proj1 (pathto_shape pdu0 "/restapi/" ltac:(discriminate))).
    reflexivity.
Defined.

Lemma client_requests_stamped_witness :
  req_auth (call pdu0 PUT (state_endpoint 3) (Some (JBool true)))
  = Some (mkAuth "admin" "1234")
  /\ req_headers (call pdu0 PUT (state_endpoint 3) (Some (JBool true)))
     = [("X-CSRF", "X")]
  /\ String.prefix ("http://" ++ "pdu.lan" ++ "/restapi/relay/outlets/")
       (url (call pdu0 PUT (state_endpoint 3) (Some (JBool true)))) = true.
Proof.
  apply (proj1 (client_requests_stamped "pdu.lan" (mkAuth "admin" "1234")
                  (fresh relay_device) 3 true)).
  repeat split.
Defined.

Lemma tails_differ (a b t u : string) :
  (forall x y : list ascii,
      rev (list_ascii_of_string t) ++ x <> rev (list_ascii_of_string u) ++ y) ->
  (a ++ t)%string <> (b ++ u)%string.
Proof.
  intros Hd H. apply (f_equal (fun s => rev (list_ascii_of_string s))) in H.
  cbv beta in H. rewrite !chars_append, !rev_app_distr in H. exact (Hd _ _ H).
Qed.

(** X16.  The kinds of request never cross: for all indices, the URL of the
    state of an outlet is never the URL of a physical state or of a cycle,
    the URL of a physical state is never that of a cycle, and none of them is
    the URL of the outlet list. *)
Theorem endpoints_never_cross (self : DLIPDU.t) (i j : Z) (m m' : method)
    (body body' : option value) :
  url (call self m (state_endpoint i) body)
  <> url (call self m' (physical_endpoint j) body')
  /\ url (call self m (state_endpoint i) body)
     <> url (call self m' (cycle_endpoint j) body')
  /\ url (call self m (physical_endpoint i) body)
     <> url (call self m' (cycle_endpoint j) body')
  /\ url (call self m (state_endpoint i) body)
     <> url (call self m' outlets_endpoint body')
  /\ url (call self m (physical_endpoint i) body)
     <> url (call self m' outlets_endpoint body')
  /\ url (call self m (cycle_endpoint i) body)
     <> url (call self m' outlets_endpoint body').
Proof.
  unfold call, state_endpoint, physical_endpoint, cycle_endpoint, outlets_endpoint.
  cbn [url].
  assert (Hkinds : forall a b t u : string,
             (forall x y : list ascii,
                 rev (list_ascii_of_string t) ++ x
                 <> rev (list_ascii_of_string u) ++ y) ->
             ("http://" ++ DLIPDU.host self ++ "/restapi/relay/outlets/" ++ a ++ t
              <> "http://" ++ DLIPDU.host self ++ "/restapi/relay/outlets/" ++ b ++ u)%string).
  { intros a b t u Hd H.
    apply (append_inv_head "http://") in H. apply append_inv_head in H.
    apply (append_inv_head "/restapi/relay/outlets/") in H.
    revert H. apply tails_differ. exact Hd. }
  assert (Hlist : forall a t : string,
             t <> ""%string ->
             ("http://" ++ DLIPDU.host self ++ "/restapi/relay/outlets/" ++ a ++ t
              <> "http://" ++ DLIPDU.host self ++ "/restapi/relay/outlets/")%string).
  { intros a t Ht H.
    apply (append_inv_head "http://") in H. apply append_inv_head in H.
    apply (append_inv_head "/restapi/relay/outlets/" _ "") in H.
    destruct a; cbn in H; [contradiction | discriminate]. }
  split; [apply Hkinds; cbn; intros x y; discriminate |].
  split; [apply Hkinds; cbn; intros x y; discriminate |].
  split; [apply Hkinds; cbn; intros x y; discriminate |].
  split; [apply Hlist; discriminate |].
  split; apply Hlist; discriminate.
Qed.
